(** * Avaliacao imobiliaria: the step sequencer and the valuation engine

    A shallow embedding of the wizard of [App] (the multi-step form that
    collects the attributes of a property and estimates its value):
    the derived step list [steps], the navigation functions
    [goToNextStep] / [goToPreviousStep], the per-step validity check
    [isNextDisabled], the location handlers [handleDistrictChange] /
    [handleMunicipalityChange], the price lookup
    [getPricePerSquareMeter] and the valuation [calculatePropertyValue].

    JavaScript numbers are IEEE 754 binary64 values: they are modelled by
    Rocq's primitive [float], so that every arithmetic step of the
    valuation rounds exactly as it does in the browser.  Strings are
    byte strings holding UTF-8 text.  The step index is an integer, held
    in [Z].  The current year and the rows of the price file are
    parameters of the section [App].  A price is looked up among the
    names of the price file only: the properties every JavaScript object
    inherits (such as [constructor]) are not names of municipalities and
    are left out of the dictionary.

    The areas, the floor and the year are typed into number inputs, whose
    values are the empty string or a valid floating-point number
    ([numberInputValue]).  [App] itself is a state machine over the
    events of its controls ([handle]), with a render between two events.
    The location module is run on the objects of [Freguesias.json]; an
    object used as a dictionary keeps its entries in a list, and the key
    [__proto__], which installs a prototype instead of a property, is
    modelled together with the loop over the keys that it can break
    ([sortParishes]). *)

From Stdlib Require Import ZArith Lia Bool List Ascii String Floats Permutation.
From Stdlib Require Import DecimalString.
Import ListNotations.

Set Warnings "-inexact-float".

Local Open Scope Z_scope.

(** ** The JavaScript built-ins the component calls *)

Module JS.

(** *** Numbers *)

(** [isNaN x] for a value that is already a number. *)
Definition isNaN (x : float) : bool := PrimFloat.is_nan x.

(** Truthiness of a number: [NaN], [+0] and [-0] are falsy. *)
Definition truthy (x : float) : bool :=
  negb (PrimFloat.is_nan x || PrimFloat.eqb x 0%float).

(** [x || d] on numbers. *)
Definition or_else (x d : float) : float := if truthy x then x else d.

(** The integer [z] as a number, rounded to nearest-even when it does not
    fit in 53 bits. *)
Definition of_Z (z : Z) : float :=
  SF2Prim (binary_normalize prec emax z 0 false).

(** The number nearest to [m * 10 ^ e10], for a mantissa [m >= 0];
    [neg] is the sign read in front of it. *)
Definition of_decimal (neg : bool) (m e10 : Z) : float :=
  if m =? 0 then (if neg then neg_zero else zero)
  else
    let r :=
      if 0 <=? e10
      then binary_normalize prec emax (m * 10 ^ e10) 0 false
      else SFdiv prec emax
             (S754_finite false (Z.to_pos m) 0)
             (S754_finite false (Z.to_pos (10 ^ (- e10))) 0) in
    let f := SF2Prim r in
    if neg then (- f)%float else f.

(** The canonical binary64 value of a positive integer below [2^53]:
    the mantissa is shifted left until it has 53 bits. *)
Definition of_small_pos (n : positive) : float :=
  let d := Z.pos (digits2_pos n) in
  if d <=? prec
  then SF2Prim (S754_finite false (Z.to_pos (Z.pos n * 2 ^ (prec - d))) (d - prec))
  else of_Z (Z.pos n).

(** [Math.round x]: the integer nearest to [x], ties towards +infinity;
    [NaN], the infinities and the integers are returned unchanged, and a
    result of zero keeps the sign of [x]. *)
Definition Math_round (x : float) : float :=
  match Prim2SF x with
  | S754_finite s m e =>
      if 0 <=? e then x
      else
        let sm := if s then Z.neg m else Z.pos m in
        (* floor (sm * 2^e + 1/2) *)
        let n := (2 * sm + 2 ^ (- e)) / 2 ^ (1 - e) in
        match n with
        | Z0 => if s then neg_zero else zero
        | Z.pos p => of_small_pos p
        | Z.neg p => (- of_small_pos p)%float
        end
  | _ => x
  end.

(** [Number.isInteger x]. *)
Definition isInteger (x : float) : bool :=
  match Prim2SF x with
  | S754_zero _ => true
  | S754_finite _ m e => (0 <=? e) || (Z.pos m mod 2 ^ (- e) =? 0)
  | _ => false
  end.

(** [Number.isFinite x]. *)
Definition isFinite (x : float) : bool :=
  match Prim2SF x with
  | S754_zero _ | S754_finite _ _ _ => true
  | _ => false
  end.

(** *** Strings *)

Definition code (c : ascii) : Z := Z.of_N (N_of_ascii c).

Definition chars (s : string) : list ascii := list_ascii_of_string s.

(** The UTF-8 encodings of the code points that [trim] and the numeric
    conversions skip: the WhiteSpace and LineTerminator productions
    (TAB, LF, VT, FF, CR, SP, NBSP, U+1680, U+2000..U+200A, U+2028,
    U+2029, U+202F, U+205F, U+3000, U+FEFF). *)
Definition whitespace : list (list Z) :=
  [ [9]; [10]; [11]; [12]; [13]; [32]; [194; 160]; [225; 154; 128];
    [226; 128; 128]; [226; 128; 129]; [226; 128; 130]; [226; 128; 131];
    [226; 128; 132]; [226; 128; 133]; [226; 128; 134]; [226; 128; 135];
    [226; 128; 136]; [226; 128; 137]; [226; 128; 138]; [226; 128; 168];
    [226; 128; 169]; [226; 128; 175]; [226; 129; 159]; [227; 128; 128];
    [239; 187; 191] ].

(** [strip_prefix p l]: [l] without its prefix [p], when it has it. *)
Fixpoint strip_prefix (p : list Z) (l : list ascii) : option (list ascii) :=
  match p, l with
  | [], _ => Some l
  | x :: p', c :: l' => if code c =? x then strip_prefix p' l' else None
  | _ :: _, [] => None
  end.

Fixpoint strip_any (ps : list (list Z)) (l : list ascii) : option (list ascii) :=
  match ps with
  | [] => None
  | p :: ps' =>
      match strip_prefix p l with
      | Some r => Some r
      | None => strip_any ps' l
      end
  end.

Fixpoint drop_ws (ws : list (list Z)) (fuel : nat) (l : list ascii) : list ascii :=
  match fuel with
  | O => l
  | S fuel' =>
      match strip_any ws l with
      | Some r => drop_ws ws fuel' r
      | None => l
      end
  end.

Definition trimStart_chars (l : list ascii) : list ascii :=
  drop_ws whitespace (List.length l) l.

Definition trimEnd_chars (l : list ascii) : list ascii :=
  rev (drop_ws (map (@rev Z) whitespace) (List.length l) (rev l)).

Definition trim_chars (l : list ascii) : list ascii :=
  trimEnd_chars (trimStart_chars l).

(** [s.trim()] *)
Definition trim (s : string) : string :=
  string_of_list_ascii (trim_chars (chars s)).

(** [s.toUpperCase()], on the ASCII letters.  The results are only ever
    compared with ["T0"].. ["T4"], ["A+"], ["A"] and ["B"], and no
    character outside ASCII upper-cases to one of those. *)
Definition upper_char (c : ascii) : ascii :=
  let n := code c in
  if (97 <=? n) && (n <=? 122) then ascii_of_N (Z.to_N (n - 32)) else c.

Fixpoint toUpperCase (s : string) : string :=
  match s with
  | EmptyString => EmptyString
  | String c r => String (upper_char c) (toUpperCase r)
  end.

(** [s.startsWith(p)] *)
Definition startsWith (s p : string) : bool := String.prefix p s.

(** [s.replace(/\D/g, '')]: the decimal digits of [s], in order. *)
Definition is_digit (c : ascii) : bool := (48 <=? code c) && (code c <=? 57).

Fixpoint digits_only (s : string) : string :=
  match s with
  | EmptyString => EmptyString
  | String c r => if is_digit c then String c (digits_only r) else digits_only r
  end.

(** *** Text to number *)

(** The value of a digit in radix [radix] (at most 16). *)
Definition digit_val (radix : Z) (c : ascii) : option Z :=
  let n := code c in
  let v :=
    if (48 <=? n) && (n <=? 57) then n - 48
    else if (97 <=? n) && (n <=? 102) then n - 87
    else if (65 <=? n) && (n <=? 70) then n - 55
    else 16 in
  if v <? radix then Some v else None.

(** The longest run of digits at the head of [l]: the value accumulated
    onto [acc], the number of digits read, and the rest. *)
Fixpoint scan_digits (radix acc cnt : Z) (l : list ascii) : Z * Z * list ascii :=
  match l with
  | c :: r =>
      match digit_val radix c with
      | Some d => scan_digits radix (radix * acc + d) (cnt + 1) r
      | None => (acc, cnt, l)
      end
  | [] => (acc, cnt, l)
  end.

(** An optional sign: whether it is a minus, and the rest. *)
Definition scan_sign (l : list ascii) : bool * list ascii :=
  match l with
  | c :: r =>
      if code c =? 45 then (true, r)
      else if code c =? 43 then (false, r)
      else (false, l)
  | [] => (false, l)
  end.

(** An optional ExponentPart ([e] or [E], an optional sign, digits): its
    value and the rest; without digits nothing is consumed. *)
Definition scan_exponent (l : list ascii) : Z * list ascii :=
  match l with
  | c :: r =>
      if (code c =? 101) || (code c =? 69) then
        let '(neg, r1) := scan_sign r in
        let '(e, cnt, r2) := scan_digits 10 0 0 r1 in
        if 0 <? cnt then ((if neg then - e else e), r2) else (0, l)
      else (0, l)
  | [] => (0, l)
  end.

(** The longest prefix of [l] that is a StrDecimalLiteral, as a number,
    with what follows it. *)
Definition scan_decimal (l : list ascii) : option (float * list ascii) :=
  let '(neg, l1) := scan_sign l in
  match strip_prefix (map code (chars "Infinity")) l1 with
  | Some r => Some ((if neg then neg_infinity else infinity), r)
  | None =>
      let '(i, ni, l2) := scan_digits 10 0 0 l1 in
      let '(m, nf, l3) :=
        match l2 with
        | c :: r => if code c =? 46 then scan_digits 10 i 0 r else (i, 0, l2)
        | [] => (i, 0, l2)
        end in
      if (ni + nf =? 0) then None
      else
        let '(e, l4) := scan_exponent l3 in
        Some (of_decimal neg m (e - nf), l4)
  end.

(** [parseFloat(s)] *)
Definition parseFloat (s : string) : float :=
  match scan_decimal (trimStart_chars (chars s)) with
  | Some (x, _) => x
  | None => nan
  end.

(** A NonDecimalIntegerLiteral: [0x], [0o] or [0b] and digits. *)
Definition radix_of_prefix (l : list ascii) : option (Z * list ascii) :=
  match l with
  | z :: c :: r =>
      if code z =? 48 then
        if (code c =? 120) || (code c =? 88) then Some (16, r)
        else if (code c =? 111) || (code c =? 79) then Some (8, r)
        else if (code c =? 98) || (code c =? 66) then Some (2, r)
        else None
      else None
  | _ => None
  end.

(** [Number(s)]: the whole text, trimmed, must be a numeric literal; the
    empty text is [+0]. *)
Definition Number (s : string) : float :=
  let l := trim_chars (chars s) in
  match l with
  | [] => zero
  | _ =>
      match radix_of_prefix l with
      | Some (radix, r) =>
          match scan_digits radix 0 0 r with
          | (v, cnt, []) => if 0 <? cnt then of_Z v else nan
          | _ => nan
          end
      | None =>
          match scan_decimal l with
          | Some (x, []) => x
          | _ => nan
          end
      end
  end.

(** [parseInt(s)], without a radix: leading white space, a sign, an
    optional [0x], then the longest run of digits. *)
Definition parseInt (s : string) : float :=
  let '(neg, l1) := scan_sign (trimStart_chars (chars s)) in
  let '(radix, l2) :=
    match radix_of_prefix l1 with
    | Some (16, r) => (16, r)
    | _ => (10, l1)
    end in
  let '(v, cnt, _) := scan_digits radix 0 0 l2 in
  if cnt =? 0 then nan
  else if v =? 0 then (if neg then neg_zero else zero)
  else if neg then (- of_Z v)%float else of_Z v.

(** [Math.max(x, y)]: [NaN] when either is [NaN]; [+0] is larger than
    [-0]. *)
Definition Math_max (x y : float) : float :=
  if PrimFloat.is_nan x || PrimFloat.is_nan y then nan
  else if (x <? y)%float then y
  else if (y <? x)%float then x
  else if PrimFloat.get_sign x then y else x.

(** [Math.min(x, y)]: [NaN] when either is [NaN]; [-0] is smaller than
    [+0]. *)
Definition Math_min (x y : float) : float :=
  if PrimFloat.is_nan x || PrimFloat.is_nan y then nan
  else if (x <? y)%float then x
  else if (y <? x)%float then y
  else if PrimFloat.get_sign x then x else y.

End JS.

Local Open Scope string_scope.

(** ** The form data *)

(** [propertyType: '' | 'Moradia' | 'Apartamento'] *)
Inductive PropertyType := TipoVazio | Moradia | Apartamento.

(** [conservationState: '' | 'good' | 'needs_renovation'] *)
Inductive ConservationState := EstadoVazio | good | needs_renovation.

(** The yes/no answers: ['' | 'Sim' | 'Nao'] *)
Inductive SimNao := SemResposta | Sim | Nao.

Record FormData := mkFormData {
  propertyType : PropertyType;
  livingArea : string;
  plotArea : string;
  floor : string;
  propertyConfig : string;
  yearBuilt : string;
  conservationState : ConservationState;
  energyClass : string;
  elevator : SimNao;
  balcony : SimNao;
  garage : SimNao;
  pool : SimNao;
  garden : SimNao;
  streetAddress : string;
  district : string;
  municipality : string;
  parish : string;
  phone : string;
  acceptsContact : bool;
  wantsProfessionalEvaluation : bool
}.

(** The initial value of [useState]: every answer empty. *)
Definition emptyForm : FormData :=
  mkFormData TipoVazio "" "" "" "" "" EstadoVazio "" SemResposta SemResposta
    SemResposta SemResposta SemResposta "" "" "" "" "" false false.

(** [handleDistrictChange]: [{...prev, district: value, municipality: '', parish: ''}] *)
Definition handleDistrictChange (value : string) (prev : FormData) : FormData :=
  mkFormData (propertyType prev) (livingArea prev) (plotArea prev) (floor prev)
    (propertyConfig prev) (yearBuilt prev) (conservationState prev)
    (energyClass prev) (elevator prev) (balcony prev) (garage prev) (pool prev)
    (garden prev) (streetAddress prev)
    value "" ""
    (phone prev) (acceptsContact prev) (wantsProfessionalEvaluation prev).

(** [handleMunicipalityChange]: [{...prev, municipality: value, parish: ''}] *)
Definition handleMunicipalityChange (value : string) (prev : FormData) : FormData :=
  mkFormData (propertyType prev) (livingArea prev) (plotArea prev) (floor prev)
    (propertyConfig prev) (yearBuilt prev) (conservationState prev)
    (energyClass prev) (elevator prev) (balcony prev) (garage prev) (pool prev)
    (garden prev) (streetAddress prev)
    (district prev) value ""
    (phone prev) (acceptsContact prev) (wantsProfessionalEvaluation prev).

(** ** The steps *)

(** The names pushed onto the step list. *)
Inductive StepName :=
  | Tipo | AreaUtil | AreaTotal | Floor | Tipologia | Ano | Conservacao
  | ClasseEnergetica | Piscina | Jardim | Elevador | Varanda | Garagem
  | Localizacao | Contacto | Resultado.

(** [list[i]] for a number [i] that is an integer: [undefined] outside
    the list. *)
Definition index {A : Type} (l : list A) (i : Z) : option A :=
  if (i <? 0)%Z then None else nth_error l (Z.to_nat i).

Section App.

(** [new Date().getFullYear()] *)
Variable currentYear : float.

(** The rows of [precos_m2_concelhos.json]: the properties [Concelho] and
    [Preco medio] of each object, a missing one already replaced by
    [''] or [0] as [??] does. *)
Variable precos : list (string * float).

(** [steps]: the list of step names for the answers given so far. *)
Definition steps (formData : FormData) : list StepName :=
  let list := [Tipo; AreaUtil] in
  let list :=
    match propertyType formData with
    | Moradia => (list ++ [AreaTotal])%list
    | Apartamento => (list ++ [Floor])%list
    | TipoVazio => list
    end in
  let list := (list ++ [Tipologia; Ano])%list in
  let yearNum := JS.parseInt (yearBuilt formData) in
  let list :=
    if negb (JS.isNaN yearNum) && (15 <? currentYear - yearNum)%float
    then (list ++ [Conservacao])%list else list in
  let list := (list ++ [ClasseEnergetica])%list in
  let list :=
    match propertyType formData with
    | Moradia => (list ++ [Piscina; Jardim])%list
    | Apartamento => (list ++ [Elevador; Varanda; Garagem])%list
    | TipoVazio => list
    end in
  (list ++ [Localizacao; Contacto; Resultado])%list.

Definition totalSteps (formData : FormData) : Z :=
  Z.of_nat (List.length (steps formData)).

(** [goToNextStep]: [s => Math.min(s + 1, steps.length - 1)] *)
Definition goToNextStep (formData : FormData) (s : Z) : Z :=
  Z.min (s + 1) (totalSteps formData - 1).

(** [goToPreviousStep]: [s => Math.max(s - 1, 0)] *)
Definition goToPreviousStep (s : Z) : Z := Z.max (s - 1) 0.

(** [isNextDisabled]: whether the button that advances is disabled at
    step [currentStep]. *)
Definition isNextDisabled (formData : FormData) (currentStep : Z) : bool :=
  match index (steps formData) currentStep with
  | Some Tipo =>
      match propertyType formData with TipoVazio => true | _ => false end
  | Some AreaUtil =>
      (JS.trim (livingArea formData) =? "")
      || (JS.Number (livingArea formData) <=? 0)%float
  | Some AreaTotal =>
      (JS.trim (plotArea formData) =? "")
      || (JS.Number (plotArea formData) <=? 0)%float
      || (JS.Number (plotArea formData) <=? JS.Number (livingArea formData))%float
  | Some Floor =>
      (JS.trim (floor formData) =? "")
      || (JS.Number (floor formData) <? 0)%float
  | Some Tipologia => propertyConfig formData =? ""
  | Some Ano =>
      (JS.trim (yearBuilt formData) =? "")
      || JS.isNaN (JS.Number (yearBuilt formData))
      || (JS.Number (yearBuilt formData) <? 1900)%float
      || (2025 <? JS.Number (yearBuilt formData))%float
  | Some Conservacao =>
      match conservationState formData with EstadoVazio => true | _ => false end
  | Some ClasseEnergetica => energyClass formData =? ""
  | Some Piscina =>
      match pool formData with SemResposta => true | _ => false end
  | Some Jardim =>
      match garden formData with SemResposta => true | _ => false end
  | Some Elevador =>
      match elevator formData with SemResposta => true | _ => false end
  | Some Varanda =>
      match balcony formData with SemResposta => true | _ => false end
  | Some Garagem =>
      match garage formData with SemResposta => true | _ => false end
  | Some Localizacao =>
      (district formData =? "")
      || (municipality formData =? "")
      || (parish formData =? "")
  | Some Contacto =>
      negb (Z.of_nat (String.length (JS.digits_only (phone formData))) =? 9)%Z
  | Some Resultado | None => false
  end.

(** ** The price per square metre *)

(** [pricePerMunicipality]: the dictionary filled from the rows; a later
    row for the same name replaces an earlier one. *)
Definition pricePerMunicipality : list (string * float) :=
  fold_left
    (fun dict item =>
       let '(concelho, valor) := item in
       if negb (concelho =? "") && negb (JS.isNaN valor)
       then (concelho, valor) :: dict else dict)
    precos [].

Fixpoint lookup (dict : list (string * float)) (key : string) : option float :=
  match dict with
  | [] => None
  | (k, v) :: rest => if k =? key then Some v else lookup rest key
  end.

(** [getPricePerSquareMeter]: [pricePerMunicipality[municipality] ?? 1500] *)
Definition getPricePerSquareMeter (municipality : string) : float :=
  match lookup pricePerMunicipality municipality with
  | Some v => v
  | None => 1500%float
  end.

(** ** The valuation *)

Local Open Scope float_scope.

Definition getTipologyAdj (tip : string) : float :=
  let t := JS.toUpperCase tip in
  if (t =? "T0")%string then -0.15
  else if (t =? "T1")%string then -0.10
  else if (t =? "T2")%string then -0.05
  else if (t =? "T3")%string then 0
  else if JS.startsWith t "T4" then 0.10
  else 0.

Definition getTipologyFactor (tip : string) : float :=
  let t := JS.toUpperCase tip in
  if (t =? "T0")%string then 0.85
  else if (t =? "T1")%string then 0.90
  else if (t =? "T2")%string then 0.95
  else if (t =? "T3")%string then 1.00
  else if JS.startsWith t "T4" then 1.10
  else 1.00.

Definition getAgeAdj (ano : string) : float :=
  let year := JS.parseInt ano in
  if JS.isNaN year then 0
  else
    let idade := currentYear - year in
    if 20 <? idade then -0.10
    else if 15 <? idade then -0.05
    else if 10 <? idade then 0
    else 0.15.

Definition getAgeFactor (ano : string) : float :=
  let year := JS.parseInt ano in
  if JS.isNaN year then 1.00
  else
    let idade := currentYear - year in
    if 20 <? idade then 0.90
    else if 15 <? idade then 0.95
    else if 10 <? idade then 1.00
    else 1.15.

Definition getStateAdj (state : ConservationState) : float :=
  match state with
  | good => 0.10
  | needs_renovation => -0.05
  | EstadoVazio => 0
  end.

Definition getStateFactor (state : ConservationState) : float :=
  match state with
  | good => 1.10
  | needs_renovation => 0.95
  | EstadoVazio => 1.00
  end.

Definition getClassAdj (cl : string) : float :=
  let c := JS.toUpperCase cl in
  if (c =? "A+")%string then 0.05
  else if (c =? "A")%string || (c =? "B")%string then 0.02
  else 0.

Definition getClassFactor (cl : string) : float :=
  let c := JS.toUpperCase cl in
  if (c =? "A+")%string then 1.05
  else if (c =? "A")%string || (c =? "B")%string then 1.02
  else 1.00.

Definition isSim (a : SimNao) : bool :=
  match a with Sim => true | _ => false end.

Definition getFloorAdj (floorStr : string) (elevator : SimNao) : float :=
  let floor := JS.parseInt floorStr in
  if JS.isNaN floor then 0
  else if floor =? 0 then -0.05
  else if (floor =? 1) || (floor =? 2) then 0
  else if 3 <=? floor then (if isSim elevator then 0.03 else -0.10)
  else 0.

Definition getElevatorAdj (floorStr : string) (elevator : SimNao) : float :=
  let floor := JS.parseInt floorStr in
  if JS.isNaN floor then 0
  else if (2 <=? floor) && isSim elevator then 0.05 else 0.

Definition getGarageAdj (gar : SimNao) : float := if isSim gar then 0.05 else 0.

Definition getBalconyAdj (bal : SimNao) : float := if isSim bal then 0.02 else 0.

Definition getPoolFactor (pool : SimNao) : float := if isSim pool then 1.03 else 1.00.

Definition getGardenFactor (garden : SimNao) : float := if isSim garden then 1.005 else 1.00.

(** [parseFloat(formData.livingArea) || 0] *)
Definition areaUtil (formData : FormData) : float :=
  JS.or_else (JS.parseFloat (livingArea formData)) 0.

(** [parseFloat(formData.plotArea || formData.livingArea) || 0] *)
Definition areaTotal (formData : FormData) : float :=
  JS.or_else
    (JS.parseFloat
       (if (plotArea formData =? "")%string then livingArea formData
        else plotArea formData)) 0.

(** The sum [totalAdj] of the apartment branch. *)
Definition totalAdj (formData : FormData) : float :=
  getTipologyAdj (propertyConfig formData)
  + getAgeAdj (yearBuilt formData)
  + getStateAdj (conservationState formData)
  + getClassAdj (energyClass formData)
  + getFloorAdj (floor formData) (elevator formData)
  + getElevatorAdj (floor formData) (elevator formData)
  + getGarageAdj (garage formData)
  + getBalconyAdj (balcony formData).

(** [baseArea] of the house branch. *)
Definition baseArea (formData : FormData) : float :=
  (areaUtil formData * 0.75)
  + ((areaTotal formData - areaUtil formData) * 0.35).

(** [factors] of the house branch, multiplied in from [1.0]. *)
Definition factors (formData : FormData) : float :=
  1.0
  * getTipologyFactor (propertyConfig formData)
  * getAgeFactor (yearBuilt formData)
  * getStateFactor (conservationState formData)
  * getPoolFactor (pool formData)
  * getGardenFactor (garden formData)
  * getClassFactor (energyClass formData).

(** The value [price] before rounding, for the two kinds of property. *)
Definition apartmentPrice (formData : FormData) : float :=
  let precoM2 := getPricePerSquareMeter (municipality formData) in
  let base := areaUtil formData * 1.25 * precoM2 in
  base * (1 + totalAdj formData).

Definition housePrice (formData : FormData) : float :=
  let precoM2 := getPricePerSquareMeter (municipality formData) in
  baseArea formData * precoM2 * factors formData.

(** [calculatePropertyValue] *)
Definition calculatePropertyValue (formData : FormData) : float :=
  match propertyType formData with
  | Apartamento => JS.Math_round (apartmentPrice formData)
  | Moradia => JS.Math_round (housePrice formData)
  | TipoVazio => 0
  end.

End App.

(** ** The progress bar *)

(** [StepProgressBar]: the width of the bar, in percent. *)
Definition StepProgressBar (currentStep totalSteps : float) : float :=
  (JS.Math_min 1 (JS.Math_max 0 (currentStep / (totalSteps - 1))) * 100)%float.

(** The bar as [App] renders it, at every step but the last:
    [<StepProgressBar currentStep={currentStep} totalSteps={totalSteps - 1} />]. *)
Definition progress (currentYear : float) (fd : FormData) (i : Z) : float :=
  StepProgressBar (JS.of_Z i) (JS.of_Z (totalSteps currentYear fd - 1)).

(** ** The check of one step *)

(** The [case] of [isNextDisabled] for the step named [name]. *)
Definition stepDisabled (fd : FormData) (name : StepName) : bool :=
  match name with
  | Tipo => match propertyType fd with TipoVazio => true | _ => false end
  | AreaUtil =>
      (JS.trim (livingArea fd) =? "")
      || (JS.Number (livingArea fd) <=? 0)%float
  | AreaTotal =>
      (JS.trim (plotArea fd) =? "")
      || (JS.Number (plotArea fd) <=? 0)%float
      || (JS.Number (plotArea fd) <=? JS.Number (livingArea fd))%float
  | Floor =>
      (JS.trim (floor fd) =? "") || (JS.Number (floor fd) <? 0)%float
  | Tipologia => propertyConfig fd =? ""
  | Ano =>
      (JS.trim (yearBuilt fd) =? "")
      || JS.isNaN (JS.Number (yearBuilt fd))
      || (JS.Number (yearBuilt fd) <? 1900)%float
      || (2025 <? JS.Number (yearBuilt fd))%float
  | Conservacao =>
      match conservationState fd with EstadoVazio => true | _ => false end
  | ClasseEnergetica => energyClass fd =? ""
  | Piscina => match pool fd with SemResposta => true | _ => false end
  | Jardim => match garden fd with SemResposta => true | _ => false end
  | Elevador => match elevator fd with SemResposta => true | _ => false end
  | Varanda => match balcony fd with SemResposta => true | _ => false end
  | Garagem => match garage fd with SemResposta => true | _ => false end
  | Localizacao =>
      (district fd =? "") || (municipality fd =? "") || (parish fd =? "")
  | Contacto =>
      negb (Z.of_nat (String.length (JS.digits_only (phone fd))) =? 9)%Z
  | Resultado => false
  end.

(** The test of [steps] on the construction year. *)
Definition oldBuilding (currentYear : float) (fd : FormData) : bool :=
  negb (JS.isNaN (JS.parseInt (yearBuilt fd)))
  && (15 <? currentYear - JS.parseInt (yearBuilt fd))%float.

(** The six lists [steps] can build. *)
Definition stepsOf (kind : PropertyType) (old : bool) : list StepName :=
  ([Tipo; AreaUtil]
   ++ match kind with
      | Moradia => [AreaTotal] | Apartamento => [Floor] | TipoVazio => []
      end
   ++ [Tipologia; Ano]
   ++ (if old then [Conservacao] else [])
   ++ [ClasseEnergetica]
   ++ match kind with
      | Moradia => [Piscina; Jardim]
      | Apartamento => [Elevador; Varanda; Garagem]
      | TipoVazio => []
      end
   ++ [Localizacao; Contacto; Resultado])%list.

(** The order in which the catalogue lists the steps. *)
Definition rank (name : StepName) : Z :=
  match name with
  | Tipo => 0 | AreaUtil => 1 | AreaTotal => 2 | Floor => 3 | Tipologia => 4
  | Ano => 5 | Conservacao => 6 | ClasseEnergetica => 7 | Piscina => 8
  | Jardim => 9 | Elevador => 10 | Varanda => 11 | Garagem => 12
  | Localizacao => 13 | Contacto => 14 | Resultado => 15
  end.

(** ** The result and the submission *)

(** [valuation]: [null] unless the current step is [Resultado]. *)
Definition valuation (currentYear : float) (precos : list (string * float))
    (fd : FormData) (currentStep : Z) : option float :=
  match index (steps currentYear fd) currentStep with
  | Some Resultado => Some (calculatePropertyValue currentYear precos fd)
  | _ => None
  end.







(** ** The wizard as a state machine *)

(** [{...prev, propertyType: value}] *)
Definition with_propertyType (value : PropertyType) (prev : FormData) : FormData :=
  mkFormData value (livingArea prev) (plotArea prev) (floor prev)
    (propertyConfig prev) (yearBuilt prev) (conservationState prev)
    (energyClass prev) (elevator prev) (balcony prev) (garage prev) (pool
    prev) (garden prev) (streetAddress prev) (district prev) (municipality
    prev) (parish prev) (phone prev) (acceptsContact prev)
    (wantsProfessionalEvaluation prev).

(** [{...prev, livingArea: value}] *)
Definition with_livingArea (value : string) (prev : FormData) : FormData :=
  mkFormData (propertyType prev) value (plotArea prev) (floor prev)
    (propertyConfig prev) (yearBuilt prev) (conservationState prev)
    (energyClass prev) (elevator prev) (balcony prev) (garage prev) (pool
    prev) (garden prev) (streetAddress prev) (district prev) (municipality
    prev) (parish prev) (phone prev) (acceptsContact prev)
    (wantsProfessionalEvaluation prev).

(** [{...prev, plotArea: value}] *)
Definition with_plotArea (value : string) (prev : FormData) : FormData :=
  mkFormData (propertyType prev) (livingArea prev) value (floor prev)
    (propertyConfig prev) (yearBuilt prev) (conservationState prev)
    (energyClass prev) (elevator prev) (balcony prev) (garage prev) (pool
    prev) (garden prev) (streetAddress prev) (district prev) (municipality
    prev) (parish prev) (phone prev) (acceptsContact prev)
    (wantsProfessionalEvaluation prev).

(** [{...prev, floor: value}] *)
Definition with_floor (value : string) (prev : FormData) : FormData :=
  mkFormData (propertyType prev) (livingArea prev) (plotArea prev) value
    (propertyConfig prev) (yearBuilt prev) (conservationState prev)
    (energyClass prev) (elevator prev) (balcony prev) (garage prev) (pool
    prev) (garden prev) (streetAddress prev) (district prev) (municipality
    prev) (parish prev) (phone prev) (acceptsContact prev)
    (wantsProfessionalEvaluation prev).

(** [{...prev, propertyConfig: value}] *)
Definition with_propertyConfig (value : string) (prev : FormData) : FormData :=
  mkFormData (propertyType prev) (livingArea prev) (plotArea prev) (floor
    prev) value (yearBuilt prev) (conservationState prev) (energyClass prev)
    (elevator prev) (balcony prev) (garage prev) (pool prev) (garden prev)
    (streetAddress prev) (district prev) (municipality prev) (parish prev)
    (phone prev) (acceptsContact prev) (wantsProfessionalEvaluation prev).

(** [{...prev, yearBuilt: value}] *)
Definition with_yearBuilt (value : string) (prev : FormData) : FormData :=
  mkFormData (propertyType prev) (livingArea prev) (plotArea prev) (floor
    prev) (propertyConfig prev) value (conservationState prev) (energyClass
    prev) (elevator prev) (balcony prev) (garage prev) (pool prev) (garden
    prev) (streetAddress prev) (district prev) (municipality prev) (parish
    prev) (phone prev) (acceptsContact prev) (wantsProfessionalEvaluation
    prev).

(** [{...prev, conservationState: value}] *)
Definition with_conservationState (value : ConservationState) (prev : FormData) : FormData :=
  mkFormData (propertyType prev) (livingArea prev) (plotArea prev) (floor
    prev) (propertyConfig prev) (yearBuilt prev) value (energyClass prev)
    (elevator prev) (balcony prev) (garage prev) (pool prev) (garden prev)
    (streetAddress prev) (district prev) (municipality prev) (parish prev)
    (phone prev) (acceptsContact prev) (wantsProfessionalEvaluation prev).

(** [{...prev, energyClass: value}] *)
Definition with_energyClass (value : string) (prev : FormData) : FormData :=
  mkFormData (propertyType prev) (livingArea prev) (plotArea prev) (floor
    prev) (propertyConfig prev) (yearBuilt prev) (conservationState prev)
    value (elevator prev) (balcony prev) (garage prev) (pool prev) (garden
    prev) (streetAddress prev) (district prev) (municipality prev) (parish
    prev) (phone prev) (acceptsContact prev) (wantsProfessionalEvaluation
    prev).

(** [{...prev, elevator: value}] *)
Definition with_elevator (value : SimNao) (prev : FormData) : FormData :=
  mkFormData (propertyType prev) (livingArea prev) (plotArea prev) (floor
    prev) (propertyConfig prev) (yearBuilt prev) (conservationState prev)
    (energyClass prev) value (balcony prev) (garage prev) (pool prev)
    (garden prev) (streetAddress prev) (district prev) (municipality prev)
    (parish prev) (phone prev) (acceptsContact prev)
    (wantsProfessionalEvaluation prev).

(** [{...prev, balcony: value}] *)
Definition with_balcony (value : SimNao) (prev : FormData) : FormData :=
  mkFormData (propertyType prev) (livingArea prev) (plotArea prev) (floor
    prev) (propertyConfig prev) (yearBuilt prev) (conservationState prev)
    (energyClass prev) (elevator prev) value (garage prev) (pool prev)
    (garden prev) (streetAddress prev) (district prev) (municipality prev)
    (parish prev) (phone prev) (acceptsContact prev)
    (wantsProfessionalEvaluation prev).

(** [{...prev, garage: value}] *)
Definition with_garage (value : SimNao) (prev : FormData) : FormData :=
  mkFormData (propertyType prev) (livingArea prev) (plotArea prev) (floor
    prev) (propertyConfig prev) (yearBuilt prev) (conservationState prev)
    (energyClass prev) (elevator prev) (balcony prev) value (pool prev)
    (garden prev) (streetAddress prev) (district prev) (municipality prev)
    (parish prev) (phone prev) (acceptsContact prev)
    (wantsProfessionalEvaluation prev).

(** [{...prev, pool: value}] *)
Definition with_pool (value : SimNao) (prev : FormData) : FormData :=
  mkFormData (propertyType prev) (livingArea prev) (plotArea prev) (floor
    prev) (propertyConfig prev) (yearBuilt prev) (conservationState prev)
    (energyClass prev) (elevator prev) (balcony prev) (garage prev) value
    (garden prev) (streetAddress prev) (district prev) (municipality prev)
    (parish prev) (phone prev) (acceptsContact prev)
    (wantsProfessionalEvaluation prev).

(** [{...prev, garden: value}] *)
Definition with_garden (value : SimNao) (prev : FormData) : FormData :=
  mkFormData (propertyType prev) (livingArea prev) (plotArea prev) (floor
    prev) (propertyConfig prev) (yearBuilt prev) (conservationState prev)
    (energyClass prev) (elevator prev) (balcony prev) (garage prev) (pool
    prev) value (streetAddress prev) (district prev) (municipality prev)
    (parish prev) (phone prev) (acceptsContact prev)
    (wantsProfessionalEvaluation prev).

(** [{...prev, streetAddress: value}] *)
Definition with_streetAddress (value : string) (prev : FormData) : FormData :=
  mkFormData (propertyType prev) (livingArea prev) (plotArea prev) (floor
    prev) (propertyConfig prev) (yearBuilt prev) (conservationState prev)
    (energyClass prev) (elevator prev) (balcony prev) (garage prev) (pool
    prev) (garden prev) value (district prev) (municipality prev) (parish
    prev) (phone prev) (acceptsContact prev) (wantsProfessionalEvaluation
    prev).

(** [{...prev, parish: value}] *)
Definition with_parish (value : string) (prev : FormData) : FormData :=
  mkFormData (propertyType prev) (livingArea prev) (plotArea prev) (floor
    prev) (propertyConfig prev) (yearBuilt prev) (conservationState prev)
    (energyClass prev) (elevator prev) (balcony prev) (garage prev) (pool
    prev) (garden prev) (streetAddress prev) (district prev) (municipality
    prev) value (phone prev) (acceptsContact prev)
    (wantsProfessionalEvaluation prev).

(** [{...prev, phone: value}] *)
Definition with_phone (value : string) (prev : FormData) : FormData :=
  mkFormData (propertyType prev) (livingArea prev) (plotArea prev) (floor
    prev) (propertyConfig prev) (yearBuilt prev) (conservationState prev)
    (energyClass prev) (elevator prev) (balcony prev) (garage prev) (pool
    prev) (garden prev) (streetAddress prev) (district prev) (municipality
    prev) (parish prev) value (acceptsContact prev)
    (wantsProfessionalEvaluation prev).

(** [{...prev, acceptsContact: value}] *)
Definition with_acceptsContact (value : bool) (prev : FormData) : FormData :=
  mkFormData (propertyType prev) (livingArea prev) (plotArea prev) (floor
    prev) (propertyConfig prev) (yearBuilt prev) (conservationState prev)
    (energyClass prev) (elevator prev) (balcony prev) (garage prev) (pool
    prev) (garden prev) (streetAddress prev) (district prev) (municipality
    prev) (parish prev) (phone prev) value (wantsProfessionalEvaluation
    prev).

(** [{...prev, wantsProfessionalEvaluation: value}] *)
Definition with_wantsProfessionalEvaluation (value : bool) (prev : FormData) : FormData :=
  mkFormData (propertyType prev) (livingArea prev) (plotArea prev) (floor
    prev) (propertyConfig prev) (yearBuilt prev) (conservationState prev)
    (energyClass prev) (elevator prev) (balcony prev) (garage prev) (pool
    prev) (garden prev) (streetAddress prev) (district prev) (municipality
    prev) (parish prev) (phone prev) (acceptsContact prev) value.

(** The state of [App]. *)
Record AppState := mkApp {
  showWelcome : bool;
  currentStep : Z;
  formData : FormData
}.

(** [useState]'s initial values. *)
Definition initialState : AppState := mkApp true 0 emptyForm.

(** What the user can do: press a button, or change one control of the
    step on screen; an event carries the value the handler receives. *)
Inductive Event :=
  | ClickStart
  | ClickBack
  | ClickPrimary
  | ClickNewEvaluation
  | SelectPropertyType (v : PropertyType)
  | ChangeLivingArea (v : string)
  | ChangePlotArea (v : string)
  | ChangeFloor (v : string)
  | SelectConfig (v : string)
  | ChangeYearBuilt (v : string)
  | SelectConservation (v : ConservationState)
  | SelectEnergyClass (v : string)
  | SelectPool (v : SimNao)
  | SelectGarden (v : SimNao)
  | SelectElevator (v : SimNao)
  | SelectBalcony (v : SimNao)
  | SelectGarage (v : SimNao)
  | ChangeStreetAddress (v : string)
  | ChangeDistrict (v : string)
  | ChangeMunicipality (v : string)
  | ChangeParish (v : string)
  | ChangePhone (v : string)
  | ChangeAcceptsContact (v : bool)
  | ChangeWantsEvaluation (v : bool).

(** The cards of the steps [Tipologia] and [ClasseEnergetica]. *)
Definition configCards : list string := ["T0"; "T1"; "T2"; "T3"; "T4+"].
Definition energyCards : list string := ["A+"; "A"; "B"; "C"; "D"; "E"].

Definition isCard (cards : list string) (v : string) : bool :=
  existsb (String.eqb v) cards.

Definition answered (v : SimNao) : bool :=
  match v with SemResposta => false | _ => true end.

(** [renderStep]: the effect of a control of the step [name] on the form;
    an event whose control is not on screen at that step changes
    nothing.  No card carries the empty value. *)
Definition renderStep (name : StepName) (e : Event) (fd : FormData) : FormData :=
  match name, e with
  | Tipo, SelectPropertyType v =>
      match v with TipoVazio => fd | _ => with_propertyType v fd end
  | AreaUtil, ChangeLivingArea v => with_livingArea v fd
  | AreaTotal, ChangePlotArea v => with_plotArea v fd
  | Floor, ChangeFloor v => with_floor v fd
  | Tipologia, SelectConfig v =>
      if isCard configCards v then with_propertyConfig v fd else fd
  | Ano, ChangeYearBuilt v => with_yearBuilt v fd
  | Conservacao, SelectConservation v =>
      match v with EstadoVazio => fd | _ => with_conservationState v fd end
  | ClasseEnergetica, SelectEnergyClass v =>
      if isCard energyCards v then with_energyClass v fd else fd
  | Piscina, SelectPool v => if answered v then with_pool v fd else fd
  | Jardim, SelectGarden v => if answered v then with_garden v fd else fd
  | Elevador, SelectElevator v => if answered v then with_elevator v fd else fd
  | Varanda, SelectBalcony v => if answered v then with_balcony v fd else fd
  | Garagem, SelectGarage v => if answered v then with_garage v fd else fd
  | Localizacao, ChangeStreetAddress v => with_streetAddress v fd
  | Localizacao, ChangeDistrict v => handleDistrictChange v fd
  | Localizacao, ChangeMunicipality v =>
      (* the select is disabled while no district is chosen *)
      if district fd =? "" then fd else handleMunicipalityChange v fd
  | Localizacao, ChangeParish v =>
      (* the select is disabled while no municipality is chosen *)
      if municipality fd =? "" then fd else with_parish v fd
  | Contacto, ChangePhone v => with_phone v fd
  | Contacto, ChangeAcceptsContact v => with_acceptsContact v fd
  | Contacto, ChangeWantsEvaluation v => with_wantsProfessionalEvaluation v fd
  | _, _ => fd
  end.

Definition isResultado (cur : option StepName) : bool :=
  match cur with Some Resultado => true | _ => false end.

(** [handlePrimaryButton]: at [Contacto] it submits and advances, at
    [Resultado] it starts over, elsewhere it advances. *)
Definition handlePrimaryButton (currentYear : float) (st : AppState) : AppState :=
  match index (steps currentYear (formData st)) (currentStep st) with
  | Some Resultado => mkApp (showWelcome st) 0 emptyForm
  | _ =>
      mkApp (showWelcome st)
        (goToNextStep currentYear (formData st) (currentStep st))
        (formData st)
  end.

(** One event, handled on the screen that the state renders. *)
Definition handle (currentYear : float) (e : Event) (st : AppState) : AppState :=
  let cur := index (steps currentYear (formData st)) (currentStep st) in
  if showWelcome st then
    match e with
    | ClickStart => mkApp false 0 (formData st)
    | _ => st
    end
  else
    match e with
    | ClickStart => st
    | ClickBack =>
        if (0 <? currentStep st)%Z && negb (isResultado cur)
        then mkApp false (goToPreviousStep (currentStep st)) (formData st)
        else st
    | ClickPrimary =>
        if isResultado cur
           || isNextDisabled currentYear (formData st) (currentStep st)
        then st
        else handlePrimaryButton currentYear st
    | ClickNewEvaluation =>
        if isResultado cur then mkApp false 0 emptyForm else st
    | _ =>
        match cur with
        | Some name =>
            mkApp false (currentStep st) (renderStep name e (formData st))
        | None => st
        end
    end.

(** The states the user can bring the wizard to. *)
Inductive reachable (currentYear : float) : AppState -> Prop :=
  | reachable_initial : reachable currentYear initialState
  | reachable_handle e st :
      reachable currentYear st ->
      reachable currentYear (handle currentYear e st).

(** The run of a list of events. *)
Definition run (currentYear : float) (events : list Event) (st : AppState) : AppState :=
  fold_left (fun s e => handle currentYear e s) events st.

(** ** The location lists *)

(** An object used as a dictionary from names to values of type [A]:
    the latest assignment to a key is the one found.  A key is looked up
    only after it has been assigned.  The key [__proto__] is no property
    of the object: assigning an array to it makes the array the prototype
    of the object, and reading it gives the prototype back; its entry in
    the list is that prototype. *)
Definition dict_set {A : Type} (key : string) (value : A)
    (dict : list (string * A)) : list (string * A) :=
  (key, value) :: dict.

Fixpoint dict_get {A : Type} (dict : list (string * A)) (key : string) : option A :=
  match dict with
  | [] => None
  | (k, v) :: rest => if k =? key then Some v else dict_get rest key
  end.

(** The three exports of the location module. *)
Record Locations := mkLocations {
  districtOptions : list string;
  municipalitiesByDistrict : list (string * list string);
  parishesByMunicipality : list (string * list string)
}.

Definition protoKey : string := "__proto__".

(** [String(i)], the key of the element [i] of an array. *)
Definition indexText (i : nat) : string :=
  NilZero.string_of_uint (Nat.to_uint i).

(** The keys that [for (const key in dict)] visits after the own keys of
    [dict]: the indices of the array that is its prototype, except those
    that an own key hides.  Without such an array the prototype is
    [Object.prototype], which has nothing to enumerate. *)
Definition inheritedIndices {A : Type} (dict : list (string * list A))
  : list string :=
  match dict_get dict protoKey with
  | Some prototype =>
      filter (fun key =>
                match dict_get dict key with Some _ => false | None => true end)
        (map indexText (seq 0 (List.length prototype)))
  | None => []
  end.

Section LocationData.

(** [list.sort((a, b) => a.localeCompare(b))]: the order depends on the
    locale of the browser. *)
Variable sortText : list string -> list string.

(** The body of the inner loop, for one object [(concelho, freguesias)] of
    the district [distrito]; [None] is the [TypeError] of a [push] on
    [undefined]. *)
Definition addConcelho (distrito : string)
    (acc : option (list (string * list string) * list (string * list string)))
    (concelhoObj : string * list string)
  : option (list (string * list string) * list (string * list string)) :=
  match acc with
  | None => None
  | Some (municipalities, parishes) =>
      let '(concelho, freguesias) := concelhoObj in
      match dict_get municipalities distrito with
      | Some l =>
          Some (dict_set distrito (l ++ [concelho])%list municipalities,
                dict_set concelho freguesias parishes)
      | None => None
      end
  end.

(** The body of the outer loop, for one object [(distrito, concelhos)]. *)
Definition addDistrito (acc : option Locations)
    (distritoObj : string * list (string * list string)) : option Locations :=
  match acc with
  | None => None
  | Some loc =>
      let '(distrito, concelhos) := distritoObj in
      let options :=
        if existsb (String.eqb distrito) (districtOptions loc)
        then districtOptions loc
        else (districtOptions loc ++ [distrito])%list in
      match fold_left (addConcelho distrito) concelhos
              (Some (dict_set distrito [] (municipalitiesByDistrict loc),
                     parishesByMunicipality loc)) with
      | Some (municipalities, parishes) =>
          Some (mkLocations options municipalities parishes)
      | None => None
      end
  end.

(** The loop that sorts the municipalities of every district option;
    [None] is the [TypeError] of a [sort] on [undefined]. *)
Definition sortMunicipalities
    (acc : option (list (string * list string))) (dist : string)
  : option (list (string * list string)) :=
  match acc with
  | None => None
  | Some municipalities =>
      match dict_get municipalities dist with
      | Some l => Some (dict_set dist (sortText l) municipalities)
      | None => None
      end
  end.

(** The loop [for (const concelho in parishesByMunicipality)] that sorts
    the parishes of every key.  The own keys each hold a list, sorted in
    place; the prototype is not a key of the loop and stays as the file
    has it.  At an inherited index [parishesByMunicipality[concelho]] is
    one parish of the prototype, a string, which has no [sort]: [None]
    is that [TypeError], with which the module fails to load. *)
Definition sortParishes (parishes : list (string * list string))
  : option (list (string * list string)) :=
  match inheritedIndices parishes with
  | [] =>
      Some (map (fun kv =>
                   if fst kv =? protoKey then kv
                   else (fst kv, sortText (snd kv)))
              parishes)
  | _ :: _ => None
  end.

(** The module, run on the objects of [Freguesias.json]. *)
Definition loadLocations
    (freguesiasData : list (string * list (string * list string)))
  : option Locations :=
  match fold_left addDistrito freguesiasData (Some (mkLocations [] [] [])) with
  | None => None
  | Some loc =>
      let options := sortText (districtOptions loc) in
      match fold_left sortMunicipalities options
              (Some (municipalitiesByDistrict loc)) with
      | None => None
      | Some municipalities =>
          match sortParishes (parishesByMunicipality loc) with
          | Some parishes => Some (mkLocations options municipalities parishes)
          | None => None
          end
      end
  end.

End LocationData.

Definition StepName_eq_dec (a b : StepName) : {a = b} + {a <> b}.
Proof. decide equality. Defined.

(** A list of steps in the order of the catalogue. *)
Fixpoint increasing (l : list StepName) : bool :=
  match l with
  | a :: t =>
      match t with
      | b :: _ => (rank a <? rank b)%Z && increasing t
      | [] => true
      end
  | [] => true
  end.

(** The current index is inside the list, and every step before it
    passes its check. *)
Definition validated (currentYear : float) (st : AppState) : Prop :=
  (0 <= currentStep st < totalSteps currentYear (formData st))%Z
  /\ forall j, (0 <= j < currentStep st)%Z ->
               isNextDisabled currentYear (formData st) j = false.

(** The answers of the house scenario, entered step by step. *)
Definition houseRun : list Event :=
  [ ClickStart; SelectPropertyType Moradia; ClickPrimary;
    ChangeLivingArea "150"; ClickPrimary; ChangePlotArea "400"; ClickPrimary;
    SelectConfig "T4+"; ClickPrimary; ChangeYearBuilt "1995"; ClickPrimary;
    SelectConservation needs_renovation; ClickPrimary;
    SelectEnergyClass "D"; ClickPrimary; SelectPool Sim; ClickPrimary;
    SelectGarden Nao; ClickPrimary;
    ChangeDistrict "Braga"; ChangeMunicipality "Braga"; ChangeParish "Gualtar";
    ClickPrimary; ChangePhone "912 345 678"; ChangeAcceptsContact true;
    ClickPrimary ].


(** The integer that a text of decimal digits spells. *)
Definition year_number (s : string) : Z :=
  fst (fst (JS.scan_digits 10 0 0 (JS.chars s))).

(** [P] holds of every text of four characters drawn from [ds]. *)
Definition forall_four (ds : list ascii) (P : string -> bool) : bool :=
  forallb (fun a => forallb (fun b => forallb (fun c => forallb (fun d =>
    P (String a (String b (String c (String d ""))))
  ) ds) ds) ds) ds.

(** For the year [s]: [Number] and [parseInt] read the integer it spells,
    and the check of the step [Ano] passes exactly between 1900 and
    2025. *)
Definition year_read_alike (s : string) : bool :=
  PrimFloat.Leibniz.eqb (JS.Number s) (JS.parseInt s)
  && PrimFloat.Leibniz.eqb (JS.parseInt s) (JS.of_Z (year_number s))
  && Bool.eqb (stepDisabled (with_yearBuilt s emptyForm) Ano)
       (negb ((1900 <=? year_number s)%Z && (year_number s <=? 2025)%Z)).

(** Every sum, and every product, of a number of [acc] and one of [l]. *)
Definition sums (acc l : list float) : list float :=
  flat_map (fun x => map (fun y => (x + y)%float) l) acc.

Definition products (acc l : list float) : list float :=
  flat_map (fun x => map (fun y => (x * y)%float) l) acc.

(** The values the eight adjustments of an apartment can take, in the
    order [totalAdj] adds them, and every sum they can make. *)
Definition adjustmentTables : list (list float) :=
  [ [-0.15; -0.10; -0.05; 0; 0.10]; [0; -0.10; -0.05; 0.15]; [0.10; -0.05; 0];
    [0.05; 0.02; 0]; [0; -0.05; 0.03; -0.10]; [0.05; 0]; [0.05; 0];
    [0.02; 0] ]%float.

Definition adjustmentValues : list float :=
  match adjustmentTables with
  | first :: rest => fold_left sums rest first
  | [] => []
  end.

(** The values the six factors of a house can take, in the order
    [factors] multiplies them, and every product they can make. *)
Definition factorTables : list (list float) :=
  [ [0.85; 0.90; 0.95; 1.00; 1.10]; [1.00; 0.90; 0.95; 1.15];
    [1.10; 0.95; 1.00]; [1.03; 1.00]; [1.005; 1.00]; [1.05; 1.02; 1.00] ]%float.

Definition factorValues : list float :=
  fold_left products factorTables [1.0%float].

(** [if (!districtOptions.includes(distrito)) districtOptions.push(distrito)] *)
Definition addOption (options : list string) (distrito : string) : list string :=
  if existsb (String.eqb distrito) options then options
  else (options ++ [distrito])%list.

(** A row of the price file that enters the dictionary. *)
Definition priceRowKept (item : string * float) : Prop :=
  fst item <> "" /\ JS.isNaN (snd item) = false.

(** A small location file: the name [Lagoa] occurs in two districts. *)
Definition sampleLocations : list (string * list (string * list string)) :=
  [ ("Faro", [("Lagoa", ["Carvoeiro"]); ("Faro", ["Montenegro"])]);
    ("Acores", [("Lagoa", ["Rosario"])]) ].

(** A sort that leaves the list as it is. *)
Definition keepOrder (l : list string) : list string := l.

(** The names every JavaScript object inherits from [Object.prototype]:
    a lookup of one of them in a dictionary does not give [undefined], so
    the statements about the price dictionary leave them aside. *)
Definition inheritedKeys : list string :=
  [ "constructor"; "__defineGetter__"; "__defineSetter__"; "hasOwnProperty";
    "__lookupGetter__"; "__lookupSetter__"; "isPrototypeOf";
    "propertyIsEnumerable"; "toString"; "valueOf"; "__proto__";
    "toLocaleString" ].

(** ** The number inputs *)

(** The areas, the floor and the year are typed into
    [<input type="number">] controls.  The value such a control hands
    to [onChange] is the text typed when it is a valid floating-point
    number of the HTML standard (an optional [-], then digits, or a point
    and digits, or both, then an optional exponent: [e] or [E], an
    optional [-] or [+], digits), and the empty string otherwise. *)

(** An optional sign among [signs] at the head of [l], skipped. *)
Definition skip_sign (signs : list Z) (l : list ascii) : list ascii :=
  match l with
  | c :: r => if existsb (Z.eqb (JS.code c)) signs then r else l
  | [] => l
  end.

(** The number of ASCII digits at the head of [l], and what follows
    them. *)
Fixpoint skip_digits (l : list ascii) : nat * list ascii :=
  match l with
  | c :: r =>
      if JS.is_digit c
      then let '(n, rest) := skip_digits r in (S n, rest)
      else (O, l)
  | [] => (O, l)
  end.

(** Nothing, or an exponent that ends the text. *)
Definition valid_exponent (l : list ascii) : bool :=
  match l with
  | [] => true
  | c :: r =>
      ((JS.code c =? 101) || (JS.code c =? 69))%Z
      && let '(n, rest) := skip_digits (skip_sign [45; 43]%Z r) in
         (0 <? n)%nat && match rest with [] => true | _ :: _ => false end
  end.

Definition valid_chars (l : list ascii) : bool :=
  let '(ni, l2) := skip_digits (skip_sign [45]%Z l) in
  match l2 with
  | c :: r =>
      if (JS.code c =? 46)%Z
      then let '(nf, l3) := skip_digits r in (0 <? nf)%nat && valid_exponent l3
      else (0 <? ni)%nat && valid_exponent l2
  | [] => (0 <? ni)%nat
  end.

(** A valid floating-point number. *)
Definition validFloatingPointNumber (s : string) : bool :=
  valid_chars (JS.chars s).

(** A value that a number input delivers. *)
Definition numberInputValue (s : string) : bool :=
  (s =? "") || validFloatingPointNumber s.


(** An event that the browser delivers: a number input hands over the
    empty string or a valid floating-point number. *)
Definition deliverable (e : Event) : bool :=
  match e with
  | ChangeLivingArea v | ChangePlotArea v | ChangeFloor v | ChangeYearBuilt v =>
      numberInputValue v
  | _ => true
  end.

(** The four fields that number inputs write hold values of number
    inputs. *)
Definition numberFields (fd : FormData) : Prop :=
  numberInputValue (livingArea fd) = true
  /\ numberInputValue (plotArea fd) = true
  /\ numberInputValue (floor fd) = true
  /\ numberInputValue (yearBuilt fd) = true.

(** ** The vocabulary of the specification *)

(** The specification's "valid 4-digit number": exactly four decimal
    digits. *)
Definition valid_four_digit_year (s : string) : bool :=
  match JS.chars s with
  | [a; b; c; d] => JS.is_digit a && JS.is_digit b && JS.is_digit c && JS.is_digit d
  | _ => false
  end.

(** The ten decimal digits. *)
Definition digit_chars : list ascii :=
  map (fun n => ascii_of_nat (48 + n)) (seq 0 10).

(** [parseInt] reads a number from every text of four digits drawn from
    [ds]. *)
Definition parseInt_reads_four (ds : list ascii) : bool :=
  forallb (fun a => forallb (fun b => forallb (fun c => forallb (fun d =>
    negb (JS.isNaN (JS.parseInt (String a (String b (String c (String d ""))))))
  ) ds) ds) ds) ds.

(** The apartment scenario of the specification: living area 80, floor 5
    with elevator, T2, built in 2010, good condition, class B, garage and
    no balcony. *)
Definition apartment_scenario (fd : FormData) : Prop :=
  propertyType fd = Apartamento /\ livingArea fd = "80" /\ floor fd = "5"
  /\ elevator fd = Sim /\ propertyConfig fd = "T2" /\ yearBuilt fd = "2010"
  /\ conservationState fd = good /\ energyClass fd = "B"
  /\ garage fd = Sim /\ balcony fd = Nao.

(** The house scenario of the specification: living area 150, plot 400,
    T4+, built in 1995, needing renovation, pool and no garden, class D. *)
Definition house_scenario (fd : FormData) : Prop :=
  propertyType fd = Moradia /\ livingArea fd = "150" /\ plotArea fd = "400"
  /\ propertyConfig fd = "T4+" /\ yearBuilt fd = "1995"
  /\ conservationState fd = needs_renovation /\ pool fd = Sim
  /\ garden fd = Nao /\ energyClass fd = "D".

(** Two answer sets that agree on every field except [plotArea], [pool]
    and [garden]. *)
Definition same_except_plot_pool_garden (a b : FormData) : Prop :=
  propertyType a = propertyType b /\ livingArea a = livingArea b
  /\ floor a = floor b /\ propertyConfig a = propertyConfig b
  /\ yearBuilt a = yearBuilt b /\ conservationState a = conservationState b
  /\ energyClass a = energyClass b /\ elevator a = elevator b
  /\ balcony a = balcony b /\ garage a = garage b
  /\ streetAddress a = streetAddress b /\ district a = district b
  /\ municipality a = municipality b /\ parish a = parish b
  /\ phone a = phone b /\ acceptsContact a = acceptsContact b
  /\ wantsProfessionalEvaluation a = wantsProfessionalEvaluation b.

(** Sample answer sets. *)
Definition apartment80 : FormData :=
  mkFormData Apartamento "80" "" "5" "T2" "2010" good "B" Sim Nao Sim
    SemResposta SemResposta "" "Lisboa" "Lisboa" "Alvalade" "912345678" true false.

Definition house150 : FormData :=
  mkFormData Moradia "150" "400" "" "T4+" "1995" needs_renovation "D"
    SemResposta SemResposta SemResposta Sim Nao "" "Braga" "Braga" "Gualtar"
    "912345678" true false.

(** A first-floor T3 apartment built in [year], nothing else chosen. *)
Definition plainT3 (year : string) : FormData :=
  mkFormData Apartamento "100" "" "1" "T3" year EstadoVazio "" Nao Nao Nao
    SemResposta SemResposta "" "Porto" "Porto" "Bonfim" "912345678" false false.

(** Reduce the projections of a form that is given by its fields. *)
Ltac fields :=
  cbn [propertyType livingArea plotArea floor propertyConfig yearBuilt
       conservationState energyClass elevator balcony garage pool garden
       streetAddress district municipality parish phone acceptsContact
       wantsProfessionalEvaluation] in *.

(** ** Facts about binary64 arithmetic *)

Module FloatFacts.

Local Open Scope Z_scope.

Lemma bounded_canonical m e :
  bounded prec emax m e = true ->
  fexp prec emax (Z.pos (digits2_pos m) + e) = e /\ e <= emax - prec.
Proof.
  unfold bounded, canonical_mantissa. intros H.
  apply andb_true_iff in H. destruct H as [H1 H2].
  apply Z.eqb_eq in H1. apply Z.leb_le in H2. auto.
Qed.

Lemma digits2_pos_size p : digits2_pos p = Pos.size p.
Proof. induction p; simpl; congruence. Qed.

Lemma digits2_log2 p : Z.pos (digits2_pos p) = Z.log2 (Z.pos p) + 1.
Proof.
  destruct p; simpl; rewrite ?digits2_pos_size, ?Pos2Z.inj_succ; lia.
Qed.

Lemma digits2_mul_pow2 p k :
  0 <= k ->
  Z.pos (digits2_pos (Z.to_pos (Z.pos p * 2 ^ k))) = Z.pos (digits2_pos p) + k.
Proof.
  intros Hk. rewrite !digits2_log2.
  assert (0 < Z.pos p * 2 ^ k) by (apply Z.mul_pos_pos; [lia | apply Z.pow_pos_nonneg; lia]).
  rewrite Z2Pos.id by assumption.
  rewrite Z.log2_mul_pow2 by lia. lia.
Qed.

(** A mantissa that is already canonical is left alone by the rounding. *)
Lemma round_canonical s m e :
  bounded prec emax m e = true ->
  binary_round_aux prec emax s (Z.pos m) e loc_Exact = S754_finite s m e.
Proof.
  intros H. destruct (bounded_canonical m e H) as [Hc Hb].
  unfold binary_round_aux, shr_fexp. cbn [Zdigits2 shr_record_of_loc].
  rewrite Hc, Z.sub_diag.
  cbn [shr shr_m loc_of_shr_record round_nearest_even Zdigits2 shr_record_of_loc].
  rewrite Hc, Z.sub_diag. cbn [shr shr_m].
  apply Z.leb_le in Hb. rewrite Hb. reflexivity.
Qed.

(** Multiplying by [1] is exact: the product of the mantissas is the
    mantissa shifted by 52 bits, and rounding shifts it back. *)
Lemma mul_one_r (x : float) : (x * 1)%float = x.
Proof.
  apply Prim2SF_inj. rewrite mul_spec.
  pose proof (Prim2SF_valid x) as V.
  change (Prim2SF 1) with (S754_finite false 4503599627370496 (-52)).
  destruct (Prim2SF x) as [s|s| |s m e]; cbn [SF64mul SFmul];
    rewrite ?xorb_false_r; try reflexivity.
  cbn [valid_binary] in V. destruct (bounded_canonical m e V) as [Hc Hb].
  unfold binary_round_aux, shr_fexp.
  assert (D : Zdigits2 (Z.pos (m * 4503599627370496)) = Z.pos (digits2_pos m) + 52).
  { cbn [Zdigits2]. rewrite <- (digits2_mul_pow2 m 52) by lia. reflexivity. }
  rewrite D.
  replace (fexp prec emax (Z.pos (digits2_pos m) + 52 + (e + -52)) - (e + -52))
    with 52 by (replace (Z.pos (digits2_pos m) + 52 + (e + -52))
                  with (Z.pos (digits2_pos m) + e) by lia; rewrite Hc; lia).
  rewrite Pos.mul_comm.
  cbn [Pos.mul shr_record_of_loc shr iter_pos shr_1 orb shr_m
       loc_of_shr_record round_nearest_even Zdigits2].
  replace (e + -52 + 52) with e by lia.
  rewrite Hc, Z.sub_diag. cbn [shr shr_m].
  apply Z.leb_le in Hb. rewrite Hb. reflexivity.
Qed.

Lemma mantissa_bound m e :
  bounded prec emax m e = true -> Z.pos m < 2 ^ 53.
Proof.
  intros H. destruct (bounded_canonical m e H) as [Hc _].
  unfold fexp, SpecFloat.emin in Hc. change prec with 53 in Hc.
  apply Z.log2_lt_pow2; [lia|].
  pose proof (digits2_log2 m). lia.
Qed.

Lemma isInteger_opp x : JS.isInteger (- x)%float = JS.isInteger x.
Proof.
  unfold JS.isInteger. rewrite opp_spec.
  destruct (Prim2SF x); reflexivity.
Qed.

Lemma isInteger_of_small_pos p :
  Z.pos p < 2 ^ 53 -> JS.isInteger (JS.of_small_pos p) = true.
Proof.
  intros Hp. unfold JS.of_small_pos.
  pose proof (digits2_log2 p) as Hd.
  assert (Hl : Z.log2 (Z.pos p) < 53) by (apply Z.log2_lt_pow2; lia).
  pose proof (Z.log2_nonneg (Z.pos p)) as Hn.
  set (d := Z.pos (digits2_pos p)) in *.
  change prec with 53.
  replace (d <=? 53) with true by (symmetry; apply Z.leb_le; lia).
  assert (Hpos : 0 < Z.pos p * 2 ^ (53 - d))
    by (apply Z.mul_pos_pos; [lia | apply Z.pow_pos_nonneg; lia]).
  unfold JS.isInteger. rewrite Prim2SF_SF2Prim.
  - rewrite Z2Pos.id by assumption.
    replace (- (d - 53)) with (53 - d) by lia.
    rewrite Z.mod_mul by (apply Z.pow_nonzero; lia).
    apply orb_true_r.
  - cbn [valid_binary]. unfold bounded, canonical_mantissa.
    rewrite digits2_mul_pow2 by lia. fold d.
    unfold fexp, SpecFloat.emin. change prec with 53. change emax with 1024.
    apply andb_true_iff. split; [apply Z.eqb_eq | apply Z.leb_le]; lia.
Qed.

(** [Math.round] yields an integer exactly when its argument is finite. *)
Lemma isInteger_Math_round x :
  JS.isInteger (JS.Math_round x) = JS.isFinite x.
Proof.
  unfold JS.Math_round, JS.isFinite.
  pose proof (Prim2SF_valid x) as V.
  destruct (Prim2SF x) as [s|s| |s m e] eqn:E;
    try (unfold JS.isInteger; rewrite E; reflexivity).
  cbn [valid_binary] in V. pose proof (mantissa_bound m e V) as Hm.
  destruct (0 <=? e) eqn:He.
  - unfold JS.isInteger. rewrite E, He. reflexivity.
  - apply Z.leb_gt in He.
    set (sm := if s then Z.neg m else Z.pos m).
    assert (Hsm : - 2 ^ 53 < sm < 2 ^ 53) by (unfold sm; destruct s; lia).
    replace (2 ^ (1 - e)) with (2 * 2 ^ (- e))
      by (replace (1 - e) with (Z.succ (- e)) by lia; rewrite Z.pow_succ_r; lia).
    assert (HP : 2 <= 2 ^ (- e)).
    { change 2 with (2 ^ 1) at 1. apply Z.pow_le_mono_r; lia. }
    set (P := 2 ^ (- e)) in *.
    assert (Hn : - 2 ^ 53 < (2 * sm + P) / (2 * P) < 2 ^ 53).
    { split.
      - apply Z.lt_le_trans with (- 2 ^ 53 + 1); [lia|].
        apply Z.div_le_lower_bound; nia.
      - apply Z.div_lt_upper_bound; nia. }
    destruct ((2 * sm + P) / (2 * P)) as [|p|p].
    + destruct s; reflexivity.
    + apply isInteger_of_small_pos. lia.
    + rewrite isInteger_opp. apply isInteger_of_small_pos. lia.
Qed.

Lemma not_nan x : JS.isNaN x = false -> Prim2SF x <> S754_nan.
Proof.
  unfold JS.isNaN, PrimFloat.is_nan. rewrite eqb_spec. intros H E.
  rewrite E in H. discriminate.
Qed.

Lemma SFcompare_antisym a b :
  SFcompare b a = option_map CompOpp (SFcompare a b).
Proof.
  destruct a as [sa|sa| |sa ma ea], b as [sb|sb| |sb mb eb];
    try destruct sa; try destruct sb; try reflexivity;
    cbn [SFcompare option_map]; rewrite (Z.compare_antisym ea eb);
    change (Pos.compare_cont Eq mb ma)
      with (Pos.compare_cont (CompOpp Eq) mb ma);
    rewrite <- (Pos.compare_cont_antisym ma mb Eq);
    destruct (ea ?= eb); cbn [CompOpp]; try reflexivity;
    destruct (Pos.compare_cont Eq ma mb); reflexivity.
Qed.

(** Without [NaN], [x <= y] is the negation of [y < x]. *)
Lemma leb_negb_ltb x y :
  JS.isNaN x = false -> JS.isNaN y = false ->
  (x <=? y)%float = negb (y <? x)%float.
Proof.
  intros Hx Hy. apply not_nan in Hx. apply not_nan in Hy.
  rewrite leb_spec, ltb_spec. unfold SFleb, SFltb.
  rewrite (SFcompare_antisym (Prim2SF x) (Prim2SF y)).
  destruct (SFcompare (Prim2SF x) (Prim2SF y)) as [[ | | ]|] eqn:E;
    try reflexivity.
  destruct (Prim2SF x) as [sa|sa| |sa ma ea],
           (Prim2SF y) as [sb|sb| |sb mb eb];
    try contradiction; discriminate.
Qed.

End FloatFacts.

(** ** The built-ins on sample texts *)

Module JSExamples.

Example parseInt_year : JS.parseInt "2010" = 2010%float.
Proof. vm_compute. reflexivity. Qed.

Example parseInt_stops_at_point : JS.parseInt "2010.7" = 2010%float.
Proof. vm_compute. reflexivity. Qed.

Example parseInt_reads_no_exponent : JS.parseInt "1e3" = 1%float.
Proof. vm_compute. reflexivity. Qed.

Example parseInt_of_letters : JS.isNaN (JS.parseInt "abc") = true.
Proof. vm_compute. reflexivity. Qed.

Example parseFloat_prefix : JS.parseFloat "80.5 m2" = 80.5%float.
Proof. vm_compute. reflexivity. Qed.

Example parseFloat_tenth : JS.parseFloat "0.1" = 0.1%float.
Proof. vm_compute. reflexivity. Qed.

Example Number_of_blank : JS.Number "   " = 0%float.
Proof. vm_compute. reflexivity. Qed.

Example Number_wants_whole_text : JS.isNaN (JS.Number "12px") = true.
Proof. vm_compute. reflexivity. Qed.

Example Number_exponent : JS.Number " 1e3 " = 1000%float.
Proof. vm_compute. reflexivity. Qed.

Example Number_overflow : JS.Number "1e400" = infinity.
Proof. vm_compute. reflexivity. Qed.

Example round_half_up : JS.Math_round 2.5 = 3%float.
Proof. vm_compute. reflexivity. Qed.

Example round_negative_half : JS.Math_round (-2.5) = (-2)%float.
Proof. vm_compute. reflexivity. Qed.

Example round_below_half : JS.Math_round 0.49999999999999994 = 0%float.
Proof. vm_compute. reflexivity. Qed.

Example round_keeps_infinity : JS.Math_round infinity = infinity.
Proof. vm_compute. reflexivity. Qed.

Example trim_both_ends : JS.trim "  12 3  " = "12 3".
Proof. vm_compute. reflexivity. Qed.

Example phone_digits : JS.digits_only "+351 912-345-678" = "351912345678".
Proof. vm_compute. reflexivity. Qed.

End JSExamples.

(** ** The location handlers *)

(** C7: choosing a district stores it and empties the municipality and the
    parish; choosing a municipality stores it and empties the parish; in
    both cases every other field keeps its value. *)
Theorem location_change_clears_dependents (value : string) (prev : FormData) :
  (let next := handleDistrictChange value prev in
   district next = value /\ municipality next = "" /\ parish next = ""
   /\ propertyType next = propertyType prev /\ livingArea next = livingArea prev
   /\ plotArea next = plotArea prev /\ floor next = floor prev
   /\ propertyConfig next = propertyConfig prev /\ yearBuilt next = yearBuilt prev
   /\ conservationState next = conservationState prev
   /\ energyClass next = energyClass prev /\ elevator next = elevator prev
   /\ balcony next = balcony prev /\ garage next = garage prev
   /\ pool next = pool prev /\ garden next = garden prev
   /\ streetAddress next = streetAddress prev /\ phone next = phone prev
   /\ acceptsContact next = acceptsContact prev
   /\ wantsProfessionalEvaluation next = wantsProfessionalEvaluation prev)
  /\
  (let next := handleMunicipalityChange value prev in
   municipality next = value /\ parish next = "" /\ district next = district prev
   /\ propertyType next = propertyType prev /\ livingArea next = livingArea prev
   /\ plotArea next = plotArea prev /\ floor next = floor prev
   /\ propertyConfig next = propertyConfig prev /\ yearBuilt next = yearBuilt prev
   /\ conservationState next = conservationState prev
   /\ energyClass next = energyClass prev /\ elevator next = elevator prev
   /\ balcony next = balcony prev /\ garage next = garage prev
   /\ pool next = pool prev /\ garden next = garden prev
   /\ streetAddress next = streetAddress prev /\ phone next = phone prev
   /\ acceptsContact next = acceptsContact prev
   /\ wantsProfessionalEvaluation next = wantsProfessionalEvaluation prev).
Proof.
  split; cbv zeta; unfold handleDistrictChange, handleMunicipalityChange;
    cbn; repeat split.
Qed.

(** ** The step list and the navigation *)

Lemma steps_length_bounds currentYear fd :
  (8 <= totalSteps currentYear fd <= 13)%Z.
Proof.
  unfold totalSteps, steps.
  destruct (propertyType fd);
    destruct (negb (JS.isNaN (JS.parseInt (yearBuilt fd)))
              && (15 <? currentYear - JS.parseInt (yearBuilt fd))%float);
    cbn; lia.
Qed.

(** C8: with [n] the length of the derived step list, advancing maps the
    index [i] to [min (i + 1) (n - 1)] and retreating maps it to
    [max (i - 1) 0]; advancing from [n - 1] and retreating from [0] change
    nothing. *)
Theorem navigation_is_clamped (currentYear : float) (fd : FormData) (i : Z) :
  let n := Z.of_nat (List.length (steps currentYear fd)) in
  goToNextStep currentYear fd i = Z.min (i + 1) (n - 1)
  /\ goToPreviousStep i = Z.max (i - 1) 0
  /\ goToNextStep currentYear fd (n - 1) = (n - 1)%Z
  /\ goToPreviousStep 0 = 0%Z.
Proof.
  cbv zeta. unfold goToNextStep, goToPreviousStep.
  fold (totalSteps currentYear fd).
  repeat split; lia.
Qed.

(** The test that guards [list.push('Conservacao')]. *)
Lemma steps_conservacao_test currentYear fd :
  In Conservacao (steps currentYear fd) <->
  negb (JS.isNaN (JS.parseInt (yearBuilt fd)))
  && (15 <? currentYear - JS.parseInt (yearBuilt fd))%float = true.
Proof.
  unfold steps.
  destruct (propertyType fd);
    destruct (negb (JS.isNaN (JS.parseInt (yearBuilt fd)))
              && (15 <? currentYear - JS.parseInt (yearBuilt fd))%float);
    cbn; split; intros H; try discriminate; try reflexivity;
    try (repeat (destruct H as [H|H]; try discriminate); contradiction);
    tauto.
Qed.

(** A year of four digits is always read by [parseInt]. *)
Lemma is_digit_in_digit_chars c :
  JS.is_digit c = true -> In c digit_chars.
Proof.
  destruct c as [[] [] [] [] [] [] [] []]; intros H;
    try discriminate H; vm_compute; tauto.
Qed.

Lemma parseInt_reads_four_spec ds a b c d :
  parseInt_reads_four ds = true ->
  In a ds -> In b ds -> In c ds -> In d ds ->
  JS.isNaN (JS.parseInt (String a (String b (String c (String d ""))))) = false.
Proof.
  unfold parseInt_reads_four. intros All Ha Hb Hc Hd.
  rewrite forallb_forall in All. specialize (All a Ha).
  rewrite forallb_forall in All. specialize (All b Hb).
  rewrite forallb_forall in All. specialize (All c Hc).
  rewrite forallb_forall in All. specialize (All d Hd).
  apply negb_true_iff in All. exact All.
Qed.

Lemma parseInt_reads_four_digits : parseInt_reads_four digit_chars = true.
Proof. vm_compute. reflexivity. Qed.

Lemma parseInt_four_digit_year s :
  valid_four_digit_year s = true -> JS.isNaN (JS.parseInt s) = false.
Proof.
  destruct s as [|a [|b [|c [|d [|e r]]]]]; try discriminate.
  unfold valid_four_digit_year. cbn [JS.chars list_ascii_of_string].
  rewrite !andb_true_iff. intros [[[Ha Hb] Hc] Hd].
  apply (parseInt_reads_four_spec digit_chars a b c d
           parseInt_reads_four_digits);
    apply is_digit_in_digit_chars; assumption.
Qed.

(** For a year of four digits the step is there exactly when the building
    is more than 15 years old. *)
Lemma condition_step_for_four_digit_year currentYear fd :
  valid_four_digit_year (yearBuilt fd) = true ->
  In Conservacao (steps currentYear fd) <->
  (15 <? currentYear - JS.parseInt (yearBuilt fd))%float = true.
Proof.
  intros H. rewrite steps_conservacao_test.
  rewrite (parseInt_four_digit_year _ H). cbn [negb andb]. tauto.
Qed.

(** C3, as the specification words it, fails: the year ["200"] is not a
    4-digit number, yet [parseInt] reads it and 2025 - 200 > 15, so the
    step is there. *)
Lemma condition_step_four_digit_counterexample :
  ~ (forall (currentYear : float) (fd : FormData),
       In Conservacao (steps currentYear fd) <->
       valid_four_digit_year (yearBuilt fd) = true
       /\ (15 <? currentYear - JS.parseInt (yearBuilt fd))%float = true).
Proof.
  intros H.
  destruct (H 2025%float (plainT3 "200")) as [H1 _].
  destruct H1 as [H1 _].
  - vm_compute. tauto.
  - vm_compute in H1. discriminate.
Qed.

(** C3, amended: the step [Conservacao] is in the derived list if and
    only if [parseInt] reads a number at the head of the construction
    year and the current year minus that number exceeds 15; when it is
    there it occurs once, immediately before [ClasseEnergetica]. *)
Theorem condition_step_iff_old_building (currentYear : float) (fd : FormData) :
  (In Conservacao (steps currentYear fd) <->
   JS.isNaN (JS.parseInt (yearBuilt fd)) = false
   /\ (15 <? currentYear - JS.parseInt (yearBuilt fd))%float = true)
  /\ (In Conservacao (steps currentYear fd) ->
      exists before after,
        steps currentYear fd
        = (before ++ Conservacao :: ClasseEnergetica :: after)%list
        /\ ~ In Conservacao before /\ ~ In Conservacao after).
Proof.
  split.
  - rewrite steps_conservacao_test, andb_true_iff, negb_true_iff. tauto.
  - rewrite steps_conservacao_test. unfold steps. intros ->.
    destruct (propertyType fd); cbn.
    + exists [Tipo; AreaUtil; Tipologia; Ano],
             [Localizacao; Contacto; Resultado].
      repeat split; cbn; intuition discriminate.
    + exists [Tipo; AreaUtil; AreaTotal; Tipologia; Ano],
             [Piscina; Jardim; Localizacao; Contacto; Resultado].
      repeat split; cbn; intuition discriminate.
    + exists [Tipo; AreaUtil; Floor; Tipologia; Ano],
             [Elevador; Varanda; Garagem; Localizacao; Contacto; Resultado].
      repeat split; cbn; intuition discriminate.
Qed.

Lemma condition_step_iff_old_building_witness :
  exists before after,
    steps 2025%float house150
    = (before ++ Conservacao :: ClasseEnergetica :: after)%list
    /\ ~ In Conservacao before /\ ~ In Conservacao after.
Proof.
  apply (proj2 (condition_step_iff_old_building 2025%float house150)).
  vm_compute. tauto.
Defined.

(** ** The valuation *)

(** C9: the apartment formula reads neither [plotArea] nor [pool] nor
    [garden]: two apartments that agree on every other field get the same
    estimate. *)
Theorem apartment_value_ignores_plot_pool_garden
    (currentYear : float) (precos : list (string * float)) (a b : FormData) :
  propertyType a = Apartamento ->
  propertyType b = Apartamento ->
  same_except_plot_pool_garden a b ->
  calculatePropertyValue currentYear precos a
  = calculatePropertyValue currentYear precos b.
Proof.
  intros Ha Hb H. unfold same_except_plot_pool_garden in H.
  destruct a, b. fields.
  repeat match goal with H : _ /\ _ |- _ => destruct H end. subst.
  unfold calculatePropertyValue, apartmentPrice, areaUtil, totalAdj. fields.
  reflexivity.
Qed.

Lemma apartment_value_ignores_plot_pool_garden_witness :
  calculatePropertyValue 2025%float [("Lisboa", 2000%float)] apartment80
  = calculatePropertyValue 2025%float [("Lisboa", 2000%float)]
      (mkFormData Apartamento "80" "500" "5" "T2" "2010" good "B" Sim Nao Sim
         Sim Sim "" "Lisboa" "Lisboa" "Alvalade" "912345678" true false).
Proof.
  apply apartment_value_ignores_plot_pool_garden;
    [reflexivity | reflexivity |].
  unfold same_except_plot_pool_garden. cbn. repeat split.
Defined.

(** C1, as the specification words it, fails: with age 20 the age
    adjustment is -0.05, not 0 (the table gives 0 only for ages 11 to
    15). *)
Lemma neutral_apartment_age_counterexample :
  ~ (forall (currentYear : float) (precos : list (string * float))
            (fd : FormData) (age : Z),
       propertyType fd = Apartamento ->
       propertyConfig fd = "T3" ->
       JS.isNaN (JS.parseInt (yearBuilt fd)) = false ->
       (currentYear - JS.parseInt (yearBuilt fd))%float = JS.of_Z age ->
       (11 <= age <= 20)%Z ->
       conservationState fd = EstadoVazio ->
       energyClass fd = "" ->
       JS.parseInt (floor fd) = 1%float \/ JS.parseInt (floor fd) = 2%float ->
       elevator fd <> Sim -> garage fd <> Sim -> balcony fd <> Sim ->
       totalAdj currentYear fd = 0%float
       /\ calculatePropertyValue currentYear precos fd
          = JS.Math_round
              (areaUtil fd * 1.25
               * getPricePerSquareMeter precos (municipality fd))%float).
Proof.
  intros H.
  assert (H1 : totalAdj 2025%float (plainT3 "2005") = 0%float).
  { apply (H 2025%float [] (plainT3 "2005") 20%Z);
      try reflexivity; try discriminate; try lia.
    left. reflexivity. }
  apply (f_equal Prim2SF) in H1. vm_compute in H1. discriminate.
Qed.

(** C1, amended: for an apartment with layout T3, a construction year
    that parses and an age between 11 and 15, no condition and no energy
    class chosen, floor 1 or 2, and neither elevator nor garage nor
    balcony answered yes, the total adjustment is 0 and the estimate is
    the rounded product of the living area, 1.25 and the price per square
    metre. *)
Theorem neutral_apartment_value
    (currentYear : float) (precos : list (string * float))
    (fd : FormData) (age : Z) :
  propertyType fd = Apartamento ->
  propertyConfig fd = "T3" ->
  JS.isNaN (JS.parseInt (yearBuilt fd)) = false ->
  (currentYear - JS.parseInt (yearBuilt fd))%float = JS.of_Z age ->
  (11 <= age <= 15)%Z ->
  conservationState fd = EstadoVazio ->
  energyClass fd = "" ->
  JS.parseInt (floor fd) = 1%float \/ JS.parseInt (floor fd) = 2%float ->
  elevator fd <> Sim -> garage fd <> Sim -> balcony fd <> Sim ->
  totalAdj currentYear fd = 0%float
  /\ calculatePropertyValue currentYear precos fd
     = JS.Math_round
         (areaUtil fd * 1.25
          * getPricePerSquareMeter precos (municipality fd))%float.
Proof.
  intros Ht Hc Hn Ha Hr Hs He Hf Hel Hg Hb.
  assert (A : totalAdj currentYear fd = 0%float).
  { unfold totalAdj. rewrite Hc, Hs, He.
    assert (Age : getAgeAdj currentYear (yearBuilt fd) = 0%float).
    { unfold getAgeAdj. rewrite Hn, Ha.
      assert (C : (age = 11 \/ age = 12 \/ age = 13 \/ age = 14 \/ age = 15)%Z)
        by lia.
      destruct C as [-> | [-> | [-> | [-> | ->]]]]; reflexivity. }
    assert (Fl : getFloorAdj (floor fd) (elevator fd) = 0%float)
      by (unfold getFloorAdj; destruct Hf as [-> | ->]; reflexivity).
    assert (El : getElevatorAdj (floor fd) (elevator fd) = 0%float).
    { unfold getElevatorAdj.
      destruct Hf as [-> | ->]; [reflexivity|].
      destruct (elevator fd); try reflexivity. contradiction. }
    assert (Ga : getGarageAdj (garage fd) = 0%float)
      by (destruct (garage fd); try reflexivity; contradiction).
    assert (Ba : getBalconyAdj (balcony fd) = 0%float)
      by (destruct (balcony fd); try reflexivity; contradiction).
    rewrite Age, Fl, El, Ga, Ba. reflexivity. }
  split; [assumption|].
  unfold calculatePropertyValue, apartmentPrice. rewrite Ht, A.
  change (1 + 0)%float with 1%float.
  rewrite FloatFacts.mul_one_r. reflexivity.
Qed.

Lemma neutral_apartment_value_witness :
  totalAdj 2025%float (plainT3 "2012") = 0%float
  /\ calculatePropertyValue 2025%float [] (plainT3 "2012")
     = JS.Math_round
         (areaUtil (plainT3 "2012") * 1.25
          * getPricePerSquareMeter [] (municipality (plainT3 "2012")))%float.
Proof.
  apply (neutral_apartment_value 2025%float [] (plainT3 "2012") 13%Z);
    try reflexivity; try discriminate; try lia.
  left. reflexivity.
Defined.

(** C5: in 2025, for the apartment scenario with a price of 2000 per
    square metre, the adjustments are -0.05 (layout), 0 (age 15), 0.10
    (condition), 0.02 (energy), 0.03 (floor), 0.05 (elevator), 0.05
    (garage) and 0 (balcony), their sum is 0.20, and the estimate is
    round(80 * 1.25 * 2000 * 1.20) = 240000. *)
Theorem apartment_scenario_value
    (precos : list (string * float)) (fd : FormData) :
  apartment_scenario fd ->
  getPricePerSquareMeter precos (municipality fd) = 2000%float ->
  getTipologyAdj (propertyConfig fd) = (-0.05)%float
  /\ getAgeAdj 2025%float (yearBuilt fd) = 0%float
  /\ getStateAdj (conservationState fd) = 0.10%float
  /\ getClassAdj (energyClass fd) = 0.02%float
  /\ getFloorAdj (floor fd) (elevator fd) = 0.03%float
  /\ getElevatorAdj (floor fd) (elevator fd) = 0.05%float
  /\ getGarageAdj (garage fd) = 0.05%float
  /\ getBalconyAdj (balcony fd) = 0%float
  /\ totalAdj 2025%float fd = 0.20%float
  /\ calculatePropertyValue 2025%float precos fd
     = JS.Math_round (80 * 1.25 * 2000 * 1.20)%float
  /\ calculatePropertyValue 2025%float precos fd = 240000%float.
Proof.
  unfold apartment_scenario. intros H Hp.
  destruct fd. fields.
  repeat match goal with H : _ /\ _ |- _ => destruct H end. subst.
  unfold calculatePropertyValue, apartmentPrice. fields. rewrite Hp.
  repeat split; vm_compute; reflexivity.
Qed.

Lemma apartment_scenario_value_witness :
  totalAdj 2025%float apartment80 = 0.20%float
  /\ calculatePropertyValue 2025%float [("Lisboa", 2000%float)] apartment80
     = 240000%float.
Proof.
  assert (S : apartment_scenario apartment80)
    by (unfold apartment_scenario; cbn; repeat split).
  assert (P : getPricePerSquareMeter [("Lisboa", 2000%float)]
                (municipality apartment80) = 2000%float) by reflexivity.
  pose proof (apartment_scenario_value [("Lisboa", 2000%float)] apartment80 S P)
    as H.
  split; [apply H | apply H].
Defined.

(** C2, as the specification words it, fails: 150 * 0.75 + 250 * 0.35 is
    200, not 199.25, and the estimate is not the rounding of
    199.25 * 1800 * factors. *)
Lemma house_scenario_base_area_counterexample :
  ~ (forall (precos : list (string * float)) (fd : FormData),
       house_scenario fd ->
       getPricePerSquareMeter precos (municipality fd) = 1800%float ->
       baseArea fd = (150 * 0.75 + 250 * 0.35)%float
       /\ baseArea fd = 199.25%float
       /\ factors 2025%float fd
          = (1.10 * 0.90 * 0.95 * 1.03 * 1.00 * 1.00)%float
       /\ calculatePropertyValue 2025%float precos fd
          = JS.Math_round
              (199.25 * 1800
               * (1.10 * 0.90 * 0.95 * 1.03 * 1.00 * 1.00))%float).
Proof.
  intros H.
  assert (H1 : baseArea house150 = 199.25%float).
  { apply (H [("Braga", 1800%float)] house150); [|reflexivity].
    unfold house_scenario. cbn. repeat split. }
  apply (f_equal Prim2SF) in H1. vm_compute in H1. discriminate.
Qed.

(** C2, amended: in 2025, for the house scenario with a price of 1800 per
    square metre, the base area is 150 * 0.75 + 250 * 0.35 = 200, the
    combined factor is 1.10 * 0.90 * 0.95 * 1.03 * 1.00 * 1.00, and the
    estimate is round(200 * 1800 * that factor) = 348737. *)
Theorem house_scenario_value
    (precos : list (string * float)) (fd : FormData) :
  house_scenario fd ->
  getPricePerSquareMeter precos (municipality fd) = 1800%float ->
  baseArea fd = (150 * 0.75 + 250 * 0.35)%float
  /\ baseArea fd = 200%float
  /\ factors 2025%float fd = (1.10 * 0.90 * 0.95 * 1.03 * 1.00 * 1.00)%float
  /\ calculatePropertyValue 2025%float precos fd
     = JS.Math_round
         (200 * 1800 * (1.10 * 0.90 * 0.95 * 1.03 * 1.00 * 1.00))%float
  /\ calculatePropertyValue 2025%float precos fd = 348737%float.
Proof.
  unfold house_scenario. intros H Hp.
  destruct fd. fields.
  repeat match goal with H : _ /\ _ |- _ => destruct H end. subst.
  unfold calculatePropertyValue, housePrice. fields. rewrite Hp.
  repeat split; vm_compute; reflexivity.
Qed.

Lemma house_scenario_value_witness :
  baseArea house150 = 200%float
  /\ calculatePropertyValue 2025%float [("Braga", 1800%float)] house150
     = 348737%float.
Proof.
  assert (S : house_scenario house150)
    by (unfold house_scenario; cbn; repeat split).
  assert (P : getPricePerSquareMeter [("Braga", 1800%float)]
                (municipality house150) = 1800%float) by reflexivity.
  pose proof (house_scenario_value [("Braga", 1800%float)] house150 S P) as H.
  split; [apply H | apply H].
Defined.

(** An apartment whose living area is the (finite) number 1e308. *)
Lemma huge_apartment_value :
  calculatePropertyValue 2025%float []
    (mkFormData Apartamento "1e308" "" "1" "T3" "2012" EstadoVazio "C" Nao Nao
       Nao SemResposta SemResposta "" "Porto" "Porto" "Bonfim" "912345678"
       false false)
  = infinity.
Proof. vm_compute. reflexivity. Qed.

(** C6, as the specification words it, fails: the living area ["1e308"]
    is a finite number, the product with 1.25 and the price overflows, and
    [Math.round] returns [Infinity], which is not an integer. *)
Lemma value_is_integer_counterexample :
  ~ (forall (currentYear : float) (precos : list (string * float))
            (fd : FormData),
       (propertyType fd = Moradia \/ propertyType fd = Apartamento ->
        JS.isInteger (calculatePropertyValue currentYear precos fd) = true)
       /\ (propertyType fd = TipoVazio ->
           calculatePropertyValue currentYear precos fd = 0%float)).
Proof.
  intros H.
  destruct (H 2025%float []
              (mkFormData Apartamento "1e308" "" "1" "T3" "2012" EstadoVazio
                 "C" Nao Nao Nao SemResposta SemResposta "" "Porto" "Porto"
                 "Bonfim" "912345678" false false)) as [H1 _].
  specialize (H1 (or_intror eq_refl)).
  vm_compute in H1. discriminate.
Qed.

(** C6, amended: for an apartment or a house the function returns
    [Math.round] of the price its formula gives, which is an integer
    exactly when that price is finite (an infinite or undefined price is
    returned as it is); for a property type that is neither it returns
    0. *)
Theorem value_is_rounded_price
    (currentYear : float) (precos : list (string * float)) (fd : FormData) :
  (propertyType fd = Apartamento ->
   calculatePropertyValue currentYear precos fd
   = JS.Math_round (apartmentPrice currentYear precos fd)
   /\ JS.isInteger (calculatePropertyValue currentYear precos fd)
      = JS.isFinite (apartmentPrice currentYear precos fd))
  /\ (propertyType fd = Moradia ->
      calculatePropertyValue currentYear precos fd
      = JS.Math_round (housePrice currentYear precos fd)
      /\ JS.isInteger (calculatePropertyValue currentYear precos fd)
         = JS.isFinite (housePrice currentYear precos fd))
  /\ (propertyType fd = TipoVazio ->
      calculatePropertyValue currentYear precos fd = 0%float).
Proof.
  unfold calculatePropertyValue.
  split; [|split]; intros ->; try reflexivity;
    (split; [reflexivity | apply FloatFacts.isInteger_Math_round]).
Qed.

Lemma value_is_rounded_price_witness :
  calculatePropertyValue 2025%float [("Braga", 1800%float)] house150
  = JS.Math_round (housePrice 2025%float [("Braga", 1800%float)] house150)
  /\ JS.isInteger
       (calculatePropertyValue 2025%float [("Braga", 1800%float)] house150)
     = JS.isFinite (housePrice 2025%float [("Braga", 1800%float)] house150).
Proof.
  apply (proj1 (proj2 (value_is_rounded_price 2025%float
                         [("Braga", 1800%float)] house150))).
  reflexivity.
Defined.

(** ** The check of the total area *)


(** ** The values of the number inputs *)

(** Rounding never makes [NaN]: the numeric conversions read a number
    from every numeric literal. *)

Module FloatNumbers.

Local Open Scope Z_scope.













End FloatNumbers.

(** What [Number] does with a valid floating-point number. *)

Lemma code_range c : (0 <= JS.code c < 256)%Z.
Proof.
  unfold JS.code. pose proof (N_ascii_bounded c) as B. lia.
Qed.

















Example valid_floating_point_numbers :
  map validFloatingPointNumber
    ["150"; "-1.5"; ".5"; "1e308"; "2E+3"; "7e-2"; ""; "abc"; "5."; "+5";
     " 5"; "1e"; "-"; "."; "0x10"; "1.5.2"; "Infinity"; "12 "]
  = [true; true; true; true; true; true; false; false; false; false;
     false; false; false; false; false; false; false; false ].
Proof. vm_compute. reflexivity. Qed.



(** The hypothesis on the two fields is needed: a text that is not a
    number, which no number input delivers, would pass the comparisons of
    the step, since [Number("abc")] is [NaN] and both comparisons with
    [NaN] are false. *)
Lemma total_area_accepts_non_numeric :
  let fd :=
    mkFormData Moradia "150" "abc" "" "" "" EstadoVazio "" SemResposta
      SemResposta SemResposta SemResposta SemResposta "" "" "" "" "" false
      false in
  index (steps 2025%float fd) 2 = Some AreaTotal
  /\ numberInputValue (plotArea fd) = false
  /\ JS.isNaN (JS.Number (plotArea fd)) = true
  /\ isNextDisabled 2025%float fd 2 = false.
Proof. cbv zeta. repeat split; vm_compute; reflexivity. Qed.

(** The two hypotheses hold of every form the wizard gets to. *)

Lemma renderStep_numberFields name e fd :
  deliverable e = true -> numberFields fd -> numberFields (renderStep name e fd).
Proof.
  unfold numberFields. intros D [A [B [C E]]].
  destruct name, e; cbn [renderStep deliverable] in *;
    repeat match goal with
           | |- context [if ?b then _ else _] => destruct b
           | |- context [match ?v with TipoVazio => _ | _ => _ end] => destruct v
           | |- context [match ?v with EstadoVazio => _ | _ => _ end] => destruct v
           end;
    repeat split; assumption.
Qed.

Lemma handle_numberFields currentYear e st :
  deliverable e = true ->
  numberFields (formData st) ->
  numberFields (formData (handle currentYear e st)).
Proof.
  intros D N. unfold handle, handlePrimaryButton.
  assert (Z0 : numberFields emptyForm) by (repeat split; reflexivity).
  destruct (showWelcome st); [destruct e; exact N|].
  destruct (index (steps currentYear (formData st)) (currentStep st))
    as [name|];
    destruct e; cbn [formData isResultado];
    repeat match goal with
           | |- context [if ?b then _ else _] => destruct b
           | |- context [match ?v with Resultado => _ | _ => _ end] => destruct v
           end;
    cbn [formData];
    first [exact N | exact Z0 | apply renderStep_numberFields; assumption].
Qed.

(** Whatever the user does, the four fields hold values of number
    inputs. *)
Lemma number_fields_delivered currentYear events :
  forallb deliverable events = true ->
  numberFields (formData (run currentYear events initialState)).
Proof.
  unfold run.
  assert (G : forall st, numberFields (formData st) ->
                         forallb deliverable events = true ->
                         numberFields
                           (formData
                              (fold_left (fun s e => handle currentYear e s)
                                 events st))).
  { induction events as [|e events IH]; intros st N D; cbn [fold_left];
      [exact N|].
    cbn [forallb] in D. apply andb_true_iff in D. destruct D as [D1 D2].
    apply IH; [apply handle_numberFields; assumption | exact D2]. }
  apply G. repeat split; reflexivity.
Qed.

Example houseRun_deliverable : forallb deliverable houseRun = true.
Proof. vm_compute. reflexivity. Qed.

(** ** The shape of the step list *)

Lemma steps_shape currentYear fd :
  steps currentYear fd = stepsOf (propertyType fd) (oldBuilding currentYear fd).
Proof.
  unfold steps, stepsOf, oldBuilding.
  destruct (propertyType fd);
    destruct (negb (JS.isNaN (JS.parseInt (yearBuilt fd)))
              && (15 <? currentYear - JS.parseInt (yearBuilt fd))%float);
    reflexivity.
Qed.

Lemma isNextDisabled_stepDisabled currentYear fd i :
  isNextDisabled currentYear fd i
  = match index (steps currentYear fd) i with
    | Some name => stepDisabled fd name
    | None => false
    end.
Proof.
  unfold isNextDisabled.
  destruct (index (steps currentYear fd) i) as [[]|]; reflexivity.
Qed.

Lemma index_nth_error {A : Type} (l : list A) (i : Z) (a : A) :
  index l i = Some a <->
  exists k, i = Z.of_nat k /\ nth_error l k = Some a.
Proof.
  unfold index. split.
  - destruct (i <? 0)%Z eqn:E; [discriminate|].
    apply Z.ltb_ge in E. intros H.
    exists (Z.to_nat i). split; [lia | assumption].
  - intros [k [-> H]].
    replace (Z.of_nat k <? 0)%Z with false by (symmetry; apply Z.ltb_ge; lia).
    rewrite Nat2Z.id. assumption.
Qed.

(** Split a position in a list that is given by its elements. *)
Ltac positions k :=
  repeat (destruct k as [|k]; cbn [nth_error] in *;
          try discriminate; try lia).

(** Where the first step and the last two are. *)
Lemma steps_marks currentYear fd i :
  let n := totalSteps currentYear fd in
  (index (steps currentYear fd) i = Some Tipo <-> i = 0%Z)
  /\ (index (steps currentYear fd) i = Some Contacto <-> i = (n - 2)%Z)
  /\ (index (steps currentYear fd) i = Some Resultado <-> i = (n - 1)%Z).
Proof.
  cbv zeta. unfold totalSteps. rewrite steps_shape.
  destruct (propertyType fd), (oldBuilding currentYear fd);
    cbn [stepsOf app List.length];
    repeat split; try (intros ->; reflexivity);
    rewrite index_nth_error; intros [k [-> H]]; positions k.
Qed.

(** X1: the list has between 8 and 13 steps, none twice; [Tipo] is the
    step at index 0 and nowhere else, [Contacto] the one before the last
    and [Resultado] the last. *)
Theorem steps_ends (currentYear : float) (fd : FormData) (i : Z) :
  let n := totalSteps currentYear fd in
  (8 <= n <= 13)%Z
  /\ NoDup (steps currentYear fd)
  /\ (index (steps currentYear fd) i = Some Tipo <-> i = 0%Z)
  /\ (index (steps currentYear fd) i = Some Contacto <-> i = (n - 2)%Z)
  /\ (index (steps currentYear fd) i = Some Resultado <-> i = (n - 1)%Z).
Proof.
  cbv zeta. split; [apply steps_length_bounds|].
  unfold totalSteps. rewrite steps_shape.
  destruct (propertyType fd), (oldBuilding currentYear fd);
    cbn [stepsOf app List.length];
    (split; [repeat constructor; cbn; intuition discriminate|]);
    repeat split; try (intros ->; reflexivity);
    rewrite index_nth_error; intros [k [-> H]]; positions k.
Qed.

(** X2: the steps [AreaTotal], [Piscina] and [Jardim] are in the list
    exactly for a house, the steps [Floor], [Elevador], [Varanda] and
    [Garagem] exactly for an apartment. *)
Theorem steps_of_kind (currentYear : float) (fd : FormData) (name : StepName) :
  (In name [AreaTotal; Piscina; Jardim] ->
   (In name (steps currentYear fd) <-> propertyType fd = Moradia))
  /\ (In name [Floor; Elevador; Varanda; Garagem] ->
      (In name (steps currentYear fd) <-> propertyType fd = Apartamento)).
Proof.
  rewrite steps_shape.
  destruct (propertyType fd), (oldBuilding currentYear fd);
    cbn [stepsOf app]; split; intros H;
    cbn in H; destruct H as [<-|H]; try (destruct H as [<-|H]);
    try (destruct H as [<-|H]); try (destruct H as [<-|H]);
    try contradiction; cbn; split; intros K; try discriminate K;
    try reflexivity; intuition discriminate.
Qed.

Lemma steps_of_kind_witness :
  In Piscina (steps 2025%float house150) <-> propertyType house150 = Moradia.
Proof.
  apply (proj1 (steps_of_kind 2025%float house150 Piscina)).
  cbn. tauto.
Defined.

(** ** The wizard keeps its index inside the list *)

Lemma increasing_head a t :
  increasing (a :: t) = true -> Forall (fun b => (rank a < rank b)%Z) t.
Proof.
  revert a. induction t as [|b t IH]; intros a H; constructor.
  - cbn in H. apply andb_true_iff in H. destruct H as [H _].
    apply Z.ltb_lt in H. exact H.
  - cbn [increasing] in H. apply andb_true_iff in H. destruct H as [H1 H2].
    apply Z.ltb_lt in H1. specialize (IH b H2).
    eapply Forall_impl; [|exact IH]. cbn. intros c Hc. lia.
Qed.

Lemma increasing_tail a t : increasing (a :: t) = true -> increasing t = true.
Proof.
  destruct t as [|b t]; [reflexivity|].
  cbn [increasing]. intros H. apply andb_true_iff in H. apply H.
Qed.

Lemma increasing_nth l :
  increasing l = true ->
  forall i j a b,
    nth_error l i = Some a -> nth_error l j = Some b -> (i < j)%nat ->
    (rank a < rank b)%Z.
Proof.
  induction l as [|x l IH]; intros H i j a b Hi Hj Hlt.
  - destruct i; discriminate.
  - destruct j as [|j]; [lia|]. cbn in Hj.
    destruct i as [|i]; cbn in Hi.
    + injection Hi as <-.
      pose proof (increasing_head x l H) as F.
      rewrite Forall_forall in F. apply F.
      eapply nth_error_In. exact Hj.
    + apply (IH (increasing_tail x l H) i j a b Hi Hj). lia.
Qed.

Lemma stepsOf_increasing kind old : increasing (stepsOf kind old) = true.
Proof. destruct kind, old; reflexivity. Qed.

(** Earlier in the list means earlier in the catalogue. *)
Lemma steps_rank currentYear fd i j a b :
  index (steps currentYear fd) i = Some a ->
  index (steps currentYear fd) j = Some b ->
  (i < j)%Z -> (rank a < rank b)%Z.
Proof.
  rewrite steps_shape, !index_nth_error.
  intros [ki [-> Hi]] [kj [-> Hj]] Hlt.
  eapply increasing_nth; eauto using stepsOf_increasing. lia.
Qed.

Lemma index_in_range {A : Type} (l : list A) i a :
  index l i = Some a -> (0 <= i < Z.of_nat (List.length l))%Z.
Proof.
  rewrite index_nth_error. intros [k [-> H]].
  assert (k < List.length l)%nat by (apply nth_error_Some; congruence).
  lia.
Qed.

(** A control of the step on screen does not touch what the checks of the
    earlier steps read. *)
Lemma renderStep_keeps_earlier name e fd a :
  (rank a < rank name)%Z ->
  stepDisabled (renderStep name e fd) a = stepDisabled fd a.
Proof.
  intros H. destruct fd.
  destruct name, e; cbn [renderStep]; try reflexivity;
    try match goal with
        | |- context [match ?v with _ => _ end] => destruct v
        end;
    try reflexivity;
    destruct a; first [exfalso; cbn [rank] in H; lia | reflexivity].
Qed.

Lemma steps_ext currentYear fd fd' :
  propertyType fd' = propertyType fd -> yearBuilt fd' = yearBuilt fd ->
  steps currentYear fd' = steps currentYear fd.
Proof. unfold steps. intros -> ->. reflexivity. Qed.

Lemma renderStep_kind name e fd :
  name <> Tipo -> propertyType (renderStep name e fd) = propertyType fd.
Proof.
  intros H. destruct fd.
  destruct name, e; cbn [renderStep]; try reflexivity; try contradiction;
    match goal with
    | |- context [match ?v with _ => _ end] => destruct v
    end; reflexivity.
Qed.

Lemma renderStep_year name e fd :
  name <> Ano -> yearBuilt (renderStep name e fd) = yearBuilt fd.
Proof.
  intros H. destruct fd.
  destruct name, e; cbn [renderStep]; try reflexivity; try contradiction;
    match goal with
    | |- context [match ?v with _ => _ end] => destruct v
    end; reflexivity.
Qed.

(** A control of the step on screen leaves the list as it is up to that
    step. *)
Lemma renderStep_prefix currentYear name e fd cs :
  index (steps currentYear fd) cs = Some name ->
  forall j, (0 <= j <= cs)%Z ->
    index (steps currentYear (renderStep name e fd)) j
    = index (steps currentYear fd) j.
Proof.
  intros H j Hj.
  destruct (StepName_eq_dec name Tipo) as [->|NT].
  - apply (proj1 (proj1 (steps_marks currentYear fd cs))) in H.
    assert (j = 0%Z) as -> by lia.
    transitivity (Some Tipo); [|symmetry];
      apply (proj1 (steps_marks currentYear _ 0)); reflexivity.
  - destruct (StepName_eq_dec name Ano) as [->|NA].
    + pose proof (renderStep_kind Ano e fd NT) as K.
      revert H. rewrite !steps_shape, K.
      generalize (oldBuilding currentYear (renderStep Ano e fd)) as o'.
      generalize (oldBuilding currentYear fd) as o.
      intros o o'. rewrite index_nth_error. intros [k [-> H]].
      destruct (propertyType fd), o, o'; cbn [stepsOf app] in *;
        positions k;
        (assert (C : (j = 0 \/ j = 1 \/ j = 2 \/ j = 3 \/ j = 4)%Z) by lia;
         destruct C as [-> | [-> | [-> | [-> | ->]]]];
         first [reflexivity | exfalso; lia]).
    + rewrite (steps_ext currentYear fd (renderStep name e fd)
                 (renderStep_kind name e fd NT) (renderStep_year name e fd NA)).
      reflexivity.
Qed.

Lemma validated_edit currentYear cs fd name e :
  index (steps currentYear fd) cs = Some name ->
  validated currentYear (mkApp false cs fd) ->
  validated currentYear (mkApp false cs (renderStep name e fd)).
Proof.
  intros H [R V]. cbn [currentStep formData] in *.
  pose proof (renderStep_prefix currentYear name e fd cs H) as P.
  split; cbn [currentStep formData].
  - unfold totalSteps. apply (index_in_range _ cs name).
    rewrite P by lia. exact H.
  - intros j Hj. specialize (V j Hj).
    rewrite isNextDisabled_stepDisabled in *. rewrite P by lia.
    destruct (index (steps currentYear fd) j) as [a|] eqn:Ea; [|reflexivity].
    rewrite renderStep_keeps_earlier; [exact V|].
    apply (steps_rank currentYear fd j cs a name Ea H). lia.
Qed.

Lemma validated_fresh currentYear fd : validated currentYear (mkApp false 0 fd).
Proof.
  split; cbn [currentStep formData].
  - pose proof (steps_length_bounds currentYear fd). lia.
  - intros j Hj. lia.
Qed.

(** Every event keeps the index inside the list and the earlier steps
    checked. *)
Lemma validated_handle currentYear e st :
  validated currentYear st -> validated currentYear (handle currentYear e st).
Proof.
  intros IH.
  pose proof (steps_length_bounds currentYear (formData st)) as B.
  pose proof (validated_fresh currentYear) as Fresh.
  destruct st as [w cs fd]. destruct IH as [Rg V].
  cbn [currentStep formData] in *.
  unfold handle. cbn [showWelcome currentStep formData].
  destruct w.
  + destruct e; try (split; assumption). apply Fresh.
  + destruct e;
      try (destruct (index (steps currentYear fd) cs) as [name|] eqn:E;
           [apply validated_edit; [exact E | split; assumption]
           | split; assumption]).
    * split; assumption.
    * destruct ((0 <? cs)%Z && negb (isResultado (index (steps currentYear fd) cs)));
        [|split; assumption].
      unfold goToPreviousStep. split; cbn [currentStep formData]; [lia|].
      intros j Hj. apply V. lia.
    * destruct (isResultado (index (steps currentYear fd) cs)
                || isNextDisabled currentYear fd cs) eqn:E;
        [split; assumption|].
      apply orb_false_iff in E. destruct E as [_ E].
      unfold handlePrimaryButton. cbn [showWelcome currentStep formData].
      assert (Next : validated currentYear
                       (mkApp false (goToNextStep currentYear fd cs) fd)).
      { unfold goToNextStep. split; cbn [currentStep formData]; [lia|].
        intros j Hj.
        destruct (Z.eq_dec j cs) as [->|Nj]; [exact E | apply V; lia]. }
      destruct (index (steps currentYear fd) cs) as [[]|];
        first [exact Next | apply Fresh].
    * destruct (isResultado (index (steps currentYear fd) cs));
        [apply Fresh | split; assumption].
Qed.

Lemma validated_initial currentYear : validated currentYear initialState.
Proof.
  unfold initialState. split; cbn [currentStep formData].
  - pose proof (steps_length_bounds currentYear emptyForm). lia.
  - intros j Hj. lia.
Qed.

Lemma reachable_validated currentYear st :
  reachable currentYear st -> validated currentYear st.
Proof.
  induction 1 as [|e st R IH];
    [apply validated_initial | apply validated_handle; exact IH].
Qed.

(** ** The index beyond the list *)




(** X3: in every state the user can reach, the current index is inside
    the step list, so that there is a step on screen, and every step
    before it passes its check. *)
Theorem wizard_validated (currentYear : float) (st : AppState) :
  reachable currentYear st ->
  validated currentYear st
  /\ exists name,
       index (steps currentYear (formData st)) (currentStep st) = Some name.
Proof.
  intros R.
  assert (V : validated currentYear st).
  { induction R as [|e st R IH];
      [apply validated_initial | apply validated_handle; exact IH]. }
  split; [exact V|].
  destruct V as [[Lo Hi] _]. unfold totalSteps in Hi.
  destruct (nth_error (steps currentYear (formData st))
              (Z.to_nat (currentStep st))) as [name|] eqn:E.
  - exists name. apply index_nth_error. exists (Z.to_nat (currentStep st)).
    split; [lia | exact E].
  - apply nth_error_None in E. lia.
Qed.

Lemma reachable_run currentYear events st :
  reachable currentYear st -> reachable currentYear (run currentYear events st).
Proof.
  unfold run. revert st.
  induction events as [|e events IH]; intros st H; cbn [fold_left].
  - exact H.
  - apply IH. constructor. exact H.
Qed.

Lemma houseRun_reachable :
  reachable 2025%float (run 2025%float houseRun initialState).
Proof. apply reachable_run. constructor. Qed.

Lemma houseRun_result :
  run 2025%float houseRun initialState
  = mkApp false 11
      (mkFormData Moradia "150" "400" "" "T4+" "1995" needs_renovation "D"
         SemResposta SemResposta SemResposta Sim Nao "" "Braga" "Braga"
         "Gualtar" "912 345 678" true false).
Proof. vm_compute. reflexivity. Qed.

Lemma wizard_validated_witness :
  validated 2025%float (run 2025%float houseRun initialState).
Proof.
  apply (proj1 (wizard_validated 2025%float
                  (run 2025%float houseRun initialState)
                  (reachable_run 2025%float houseRun initialState
                     (reachable_initial 2025%float)))).
Defined.

(** When the result is on screen, every step of the list passes its
    check. *)
Lemma result_steps_pass currentYear st name :
  reachable currentYear st ->
  index (steps currentYear (formData st)) (currentStep st) = Some Resultado ->
  In name (steps currentYear (formData st)) ->
  stepDisabled (formData st) name = false.
Proof.
  intros R H Hin. destruct (reachable_validated currentYear st R) as [_ V].
  apply In_nth_error in Hin. destruct Hin as [k Hk].
  assert (Hj : index (steps currentYear (formData st)) (Z.of_nat k) = Some name)
    by (apply index_nth_error; eauto).
  pose proof (index_in_range _ _ _ Hj) as Rj.
  pose proof (proj1 (proj2 (proj2
                (steps_marks currentYear (formData st) (currentStep st)))) H)
    as Hcs.
  unfold totalSteps in Hcs.
  destruct (Z.eq_dec (Z.of_nat k) (currentStep st)) as [E|N].
  - rewrite E, H in Hj. injection Hj as <-. reflexivity.
  - specialize (V (Z.of_nat k)).
    rewrite isNextDisabled_stepDisabled, Hj in V. apply V. lia.
Qed.

Lemma stepsOf_In kind old name :
  In name (stepsOf kind old) <->
  In name [Tipo; AreaUtil; Tipologia; Ano; ClasseEnergetica; Localizacao;
           Contacto; Resultado]
  \/ (kind = Moradia /\ In name [AreaTotal; Piscina; Jardim])
  \/ (kind = Apartamento /\ In name [Floor; Elevador; Varanda; Garagem])
  \/ (old = true /\ name = Conservacao).
Proof.
  destruct kind, old, name; cbn; split; intros H;
    intuition (try discriminate; auto).
Qed.

(** X4: when the result is on screen in a state the user can reach, the
    answers have passed every check of the list: the kind is chosen, the
    living area is not blank and not refused, the layout and the energy
    class are chosen, the year is a number from 1900 to 2025, the three
    location selects are set, the phone has 9 digits, the condition is
    chosen for an old building, and the questions of the kind are
    answered. *)
Theorem result_only_for_checked_answers (currentYear : float) (st : AppState) :
  reachable currentYear st ->
  index (steps currentYear (formData st)) (currentStep st) = Some Resultado ->
  let fd := formData st in
  propertyType fd <> TipoVazio
  /\ JS.trim (livingArea fd) <> ""
  /\ (JS.Number (livingArea fd) <=? 0)%float = false
  /\ propertyConfig fd <> ""
  /\ ((1900 <=? JS.Number (yearBuilt fd))
      && (JS.Number (yearBuilt fd) <=? 2025))%float = true
  /\ energyClass fd <> ""
  /\ district fd <> "" /\ municipality fd <> "" /\ parish fd <> ""
  /\ String.length (JS.digits_only (phone fd)) = 9%nat
  /\ (oldBuilding currentYear fd = true -> conservationState fd <> EstadoVazio)
  /\ (propertyType fd = Moradia ->
      JS.trim (plotArea fd) <> ""
      /\ (JS.Number (plotArea fd) <=? 0)%float = false
      /\ (JS.Number (plotArea fd) <=? JS.Number (livingArea fd))%float = false
      /\ pool fd <> SemResposta /\ garden fd <> SemResposta)
  /\ (propertyType fd = Apartamento ->
      JS.trim (floor fd) <> ""
      /\ (JS.Number (floor fd) <? 0)%float = false
      /\ elevator fd <> SemResposta /\ balcony fd <> SemResposta
      /\ garage fd <> SemResposta).
Proof.
  intros R H fd.
  assert (P : forall name,
             In name (stepsOf (propertyType fd) (oldBuilding currentYear fd)) ->
             stepDisabled fd name = false).
  { intros name Hin. apply (result_steps_pass currentYear st name R H).
    rewrite steps_shape. exact Hin. }
  assert (Always : forall name,
             In name [Tipo; AreaUtil; Tipologia; Ano; ClasseEnergetica;
                      Localizacao; Contacto; Resultado] ->
             stepDisabled fd name = false)
    by (intros name Hin; apply P, stepsOf_In; auto).
  pose proof (Always Tipo ltac:(cbn; tauto)) as T.
  pose proof (Always AreaUtil ltac:(cbn; tauto)) as AU.
  pose proof (Always Tipologia ltac:(cbn; tauto)) as TP.
  pose proof (Always Ano ltac:(cbn; tauto)) as AN.
  pose proof (Always ClasseEnergetica ltac:(cbn; tauto)) as CE.
  pose proof (Always Localizacao ltac:(cbn; tauto)) as LO.
  pose proof (Always Contacto ltac:(cbn; tauto)) as CO.
  cbn [stepDisabled] in *.
  rewrite !orb_false_iff in *.
  destruct AU as [AU1 AU2]. destruct AN as [[[AN1 AN2] AN3] AN4].
  destruct LO as [[LO1 LO2] LO3].
  apply String.eqb_neq in AU1, TP, AN1, CE, LO1, LO2, LO3.
  apply negb_false_iff, Z.eqb_eq in CO.
  assert (Y : ((1900 <=? JS.Number (yearBuilt fd))
               && (JS.Number (yearBuilt fd) <=? 2025))%float = true).
  { assert (N1900 : JS.isNaN 1900%float = false) by reflexivity.
    assert (N2025 : JS.isNaN 2025%float = false) by reflexivity.
    rewrite (FloatFacts.leb_negb_ltb _ _ N1900 AN2),
            (FloatFacts.leb_negb_ltb _ _ AN2 N2025), AN3, AN4.
    reflexivity. }
  split; [intros E; rewrite E in T; discriminate|].
  repeat (split; [assumption|]).
  split; [lia|].
  split; [|split].
  - intros O E.
    pose proof (P Conservacao ltac:(apply stepsOf_In; auto)) as C.
    cbn [stepDisabled] in C. rewrite E in C. discriminate.
  - intros K.
    pose proof (P AreaTotal ltac:(apply stepsOf_In; cbn; tauto)) as A.
    pose proof (P Piscina ltac:(apply stepsOf_In; cbn; tauto)) as Pi.
    pose proof (P Jardim ltac:(apply stepsOf_In; cbn; tauto)) as Ja.
    cbn [stepDisabled] in *. rewrite !orb_false_iff in A.
    destruct A as [[A1 A2] A3]. apply String.eqb_neq in A1.
    repeat (split; [assumption|]).
    split; intros E; [rewrite E in Pi | rewrite E in Ja]; discriminate.
  - intros K.
    pose proof (P Floor ltac:(apply stepsOf_In; cbn; tauto)) as F.
    pose proof (P Elevador ltac:(apply stepsOf_In; cbn; tauto)) as El.
    pose proof (P Varanda ltac:(apply stepsOf_In; cbn; tauto)) as Va.
    pose proof (P Garagem ltac:(apply stepsOf_In; cbn; tauto)) as Ga.
    cbn [stepDisabled] in *. rewrite !orb_false_iff in F.
    destruct F as [F1 F2]. apply String.eqb_neq in F1.
    repeat (split; [assumption|]).
    split; [|split]; intros E;
      [rewrite E in El | rewrite E in Va | rewrite E in Ga]; discriminate.
Qed.

Lemma result_only_for_checked_answers_witness :
  propertyType (formData (run 2025%float houseRun initialState)) <> TipoVazio.
Proof.
  apply (result_only_for_checked_answers 2025%float
           (run 2025%float houseRun initialState)).
  - apply reachable_run. constructor.
  - vm_compute. reflexivity.
Defined.

(** X5: the value shown in a state the user can reach is the rounded
    price of a house or of an apartment: the 0 of an unrecognised kind is
    never shown. *)
Theorem shown_value_is_a_price
    (currentYear : float) (precos : list (string * float))
    (st : AppState) (v : float) :
  reachable currentYear st ->
  valuation currentYear precos (formData st) (currentStep st) = Some v ->
  (propertyType (formData st) = Moradia
   /\ v = JS.Math_round (housePrice currentYear precos (formData st)))
  \/ (propertyType (formData st) = Apartamento
      /\ v = JS.Math_round (apartmentPrice currentYear precos (formData st))).
Proof.
  intros R H. unfold valuation in H.
  destruct (index (steps currentYear (formData st)) (currentStep st))
    as [[]|] eqn:E; try discriminate.
  injection H as <-.
  assert (K : stepDisabled (formData st) Tipo = false).
  { apply (result_steps_pass currentYear st Tipo R E).
    rewrite steps_shape. apply stepsOf_In. left. cbn. tauto. }
  cbn [stepDisabled] in K. unfold calculatePropertyValue.
  destruct (propertyType (formData st)); [discriminate K | left | right];
    split; reflexivity.
Qed.

Lemma shown_value_is_a_price_witness :
  (propertyType (formData (run 2025%float houseRun initialState)) = Moradia
   /\ 348737%float
      = JS.Math_round
          (housePrice 2025%float [("Braga", 1800%float)]
             (formData (run 2025%float houseRun initialState))))
  \/ (propertyType (formData (run 2025%float houseRun initialState))
      = Apartamento
      /\ 348737%float
         = JS.Math_round
             (apartmentPrice 2025%float [("Braga", 1800%float)]
                (formData (run 2025%float houseRun initialState)))).
Proof.
  apply (shown_value_is_a_price 2025%float [("Braga", 1800%float)]
           (run 2025%float houseRun initialState) 348737%float).
  - apply reachable_run. constructor.
  - vm_compute. reflexivity.
Defined.



(** X7: once the result is on screen nothing can be changed: every event
    but the button that starts a new evaluation leaves the state as it is,
    and that button empties every answer and goes back to the first
    step. *)
Theorem result_is_final (currentYear : float) (st : AppState) (e : Event) :
  showWelcome st = false ->
  index (steps currentYear (formData st)) (currentStep st) = Some Resultado ->
  (e <> ClickNewEvaluation -> handle currentYear e st = st)
  /\ handle currentYear ClickNewEvaluation st = mkApp false 0 emptyForm.
Proof.
  intros W H. destruct st as [w cs fd].
  cbn [showWelcome currentStep formData] in *. subst w.
  unfold handle. cbn [showWelcome currentStep formData]. rewrite H.
  split; [|reflexivity].
  intros N. destruct e; cbn [isResultado negb andb orb renderStep];
    rewrite ?andb_false_r; try reflexivity.
  contradiction.
Qed.

Lemma result_is_final_witness :
  handle 2025%float ClickBack (run 2025%float houseRun initialState)
  = run 2025%float houseRun initialState.
Proof.
  assert (W : showWelcome (run 2025%float houseRun initialState) = false)
    by (vm_compute; reflexivity).
  assert (R : index
                (steps 2025%float
                   (formData (run 2025%float houseRun initialState)))
                (currentStep (run 2025%float houseRun initialState))
              = Some Resultado) by (vm_compute; reflexivity).
  apply (proj1 (result_is_final 2025%float
                  (run 2025%float houseRun initialState) ClickBack W R)).
  discriminate.
Defined.

(** ** The checks of the steps *)

Lemma digits_only_app a b :
  JS.digits_only (a ++ b) = JS.digits_only a ++ JS.digits_only b.
Proof.
  induction a as [|c a IH]; cbn; [reflexivity|].
  destruct (JS.is_digit c); cbn; rewrite IH; reflexivity.
Qed.

(** X8: the check of the step [Contacto] counts digits only: a character
    that is not a digit, anywhere in the phone field, does not change
    whether the button is disabled. *)
Theorem phone_check_ignores_formatting
    (currentYear : float) (fd : FormData) (i : Z)
    (before after : string) (c : ascii) :
  index (steps currentYear fd) i = Some Contacto ->
  JS.is_digit c = false ->
  isNextDisabled currentYear (with_phone (before ++ String c after) fd) i
  = isNextDisabled currentYear (with_phone (before ++ after) fd) i.
Proof.
  intros H D.
  rewrite !isNextDisabled_stepDisabled.
  rewrite (steps_ext currentYear fd
             (with_phone (before ++ String c after) fd)) by reflexivity.
  rewrite (steps_ext currentYear fd (with_phone (before ++ after) fd))
    by reflexivity.
  rewrite H. destruct fd. cbn [stepDisabled with_phone phone].
  rewrite !digits_only_app. cbn [JS.digits_only]. rewrite D. reflexivity.
Qed.

Lemma phone_check_ignores_formatting_witness :
  isNextDisabled 2025%float (with_phone ("912" ++ String " " "345678") house150) 10
  = isNextDisabled 2025%float (with_phone ("912" ++ "345678") house150) 10.
Proof.
  apply (phone_check_ignores_formatting 2025%float house150 10
           "912" "345678" " "); vm_compute; reflexivity.
Defined.

(** X9: after a district is chosen, and after a municipality is chosen,
    the step [Localizacao] does not pass until the selects below are
    set again. *)
Theorem location_change_blocks_step
    (currentYear : float) (fd : FormData) (i : Z) (value : string) :
  index (steps currentYear fd) i = Some Localizacao ->
  isNextDisabled currentYear (handleDistrictChange value fd) i = true
  /\ isNextDisabled currentYear (handleMunicipalityChange value fd) i = true.
Proof.
  intros H. rewrite !isNextDisabled_stepDisabled.
  rewrite (steps_ext currentYear fd (handleDistrictChange value fd))
    by reflexivity.
  rewrite (steps_ext currentYear fd (handleMunicipalityChange value fd))
    by reflexivity.
  rewrite H. destruct fd.
  cbn [stepDisabled handleDistrictChange handleMunicipalityChange
       district municipality parish].
  split; rewrite ?orb_true_r; reflexivity.
Qed.

Lemma location_change_blocks_step_witness :
  isNextDisabled 2025%float (handleDistrictChange "Porto" house150) 9 = true
  /\ isNextDisabled 2025%float (handleMunicipalityChange "Porto" house150) 9
     = true.
Proof.
  apply (location_change_blocks_step 2025%float house150 9 "Porto").
  vm_compute. reflexivity.
Defined.

Lemma forall_four_spec ds P a b c d :
  forall_four ds P = true ->
  In a ds -> In b ds -> In c ds -> In d ds ->
  P (String a (String b (String c (String d "")))) = true.
Proof.
  unfold forall_four. intros All Ha Hb Hc Hd.
  rewrite forallb_forall in All. specialize (All a Ha).
  rewrite forallb_forall in All. specialize (All b Hb).
  rewrite forallb_forall in All. specialize (All c Hc).
  rewrite forallb_forall in All. exact (All d Hd).
Qed.

Lemma four_digit_years P s :
  forall_four digit_chars P = true ->
  valid_four_digit_year s = true -> P s = true.
Proof.
  intros All. destruct s as [|a [|b [|c [|d [|e r]]]]]; try discriminate.
  unfold valid_four_digit_year. cbn [JS.chars list_ascii_of_string].
  rewrite !andb_true_iff. intros [[[Ha Hb] Hc] Hd].
  apply (forall_four_spec digit_chars P a b c d All);
    apply is_digit_in_digit_chars; assumption.
Qed.

Lemma years_read_alike : forall_four digit_chars year_read_alike = true.
Proof. vm_compute. reflexivity. Qed.

(** X10: for a year written with four digits, [Number] (which the check
    of the step [Ano] uses) and [parseInt] (which the step list and the
    valuation use) read the same number, the integer the digits spell,
    and the step passes exactly when that integer is between 1900 and
    2025. *)
Theorem four_digit_year_check
    (currentYear : float) (fd : FormData) (i : Z) :
  index (steps currentYear fd) i = Some Ano ->
  valid_four_digit_year (yearBuilt fd) = true ->
  JS.Number (yearBuilt fd) = JS.parseInt (yearBuilt fd)
  /\ JS.parseInt (yearBuilt fd) = JS.of_Z (year_number (yearBuilt fd))
  /\ (isNextDisabled currentYear fd i = false <->
      (1900 <= year_number (yearBuilt fd) <= 2025)%Z).
Proof.
  intros H V.
  pose proof (four_digit_years year_read_alike (yearBuilt fd)
                years_read_alike V) as A.
  unfold year_read_alike in A. rewrite !andb_true_iff in A.
  destruct A as [[A1 A2] A3].
  apply FloatAxioms.Leibniz.eqb_spec in A1, A2. apply Bool.eqb_prop in A3.
  split; [exact A1 | split; [exact A2|]].
  rewrite isNextDisabled_stepDisabled, H.
  replace (stepDisabled fd Ano)
    with (stepDisabled (with_yearBuilt (yearBuilt fd) emptyForm) Ano)
    by (destruct fd; reflexivity).
  rewrite A3, negb_false_iff, andb_true_iff, !Z.leb_le. tauto.
Qed.

Lemma four_digit_year_check_witness :
  JS.Number (yearBuilt house150) = JS.parseInt (yearBuilt house150)
  /\ JS.parseInt (yearBuilt house150)
     = JS.of_Z (year_number (yearBuilt house150))
  /\ (isNextDisabled 2025%float house150 4 = false <->
      (1900 <= year_number (yearBuilt house150) <= 2025)%Z).
Proof.
  apply (four_digit_year_check 2025%float house150 4);
    vm_compute; reflexivity.
Defined.

(** ** The range of the valuation *)

Module FloatOrder.

Lemma SFltb_trans a b c :
  SFltb a b = true -> SFltb b c = true -> SFltb a c = true.
Proof.
  unfold SFltb.
  destruct a as [sa|sa| |sa ma ea], b as [sb|sb| |sb mb eb],
           c as [sc|sc| |sc mc ec];
    try destruct sa; try destruct sb; try destruct sc;
    cbn [SFcompare]; try discriminate; try reflexivity;
    rewrite ?Pos.compare_cont_spec; cbn [Pos.switch_Eq];
    destruct (Z.compare_spec ea eb), (Z.compare_spec eb ec),
             (Z.compare_spec ea ec); try discriminate; try reflexivity;
    try lia; subst;
    destruct (Pos.compare_spec ma mb), (Pos.compare_spec mb mc),
             (Pos.compare_spec ma mc); cbn [CompOpp];
    try discriminate; try reflexivity; try lia.
Qed.

Lemma ltb_trans x y z :
  (x <? y)%float = true -> (y <? z)%float = true -> (x <? z)%float = true.
Proof. rewrite !ltb_spec. apply SFltb_trans. Qed.

End FloatOrder.

Lemma in_sums acc l x y :
  In x acc -> In y l -> In (x + y)%float (sums acc l).
Proof.
  intros Hx Hy. unfold sums. apply in_flat_map. exists x. split; [exact Hx|].
  apply in_map. exact Hy.
Qed.

Lemma in_products acc l x y :
  In x acc -> In y l -> In (x * y)%float (products acc l).
Proof.
  intros Hx Hy. unfold products. apply in_flat_map. exists x.
  split; [exact Hx|]. apply in_map. exact Hy.
Qed.

(** Close a goal [In (f ..) [v1; ..; vn]] by the cases of [f]. *)
Ltac table :=
  repeat match goal with
         | |- context [if ?b then _ else _] => destruct b
         | |- context [match ?v with _ => _ end] => destruct v
         end;
  cbn [In]; tauto.

Lemma totalAdj_in_adjustmentValues currentYear fd :
  In (totalAdj currentYear fd) adjustmentValues.
Proof.
  unfold totalAdj, adjustmentValues, adjustmentTables. cbn [fold_left].
  repeat apply in_sums.
  - unfold getTipologyAdj. table.
  - unfold getAgeAdj. table.
  - unfold getStateAdj. table.
  - unfold getClassAdj. table.
  - unfold getFloorAdj, isSim. table.
  - unfold getElevatorAdj, isSim. table.
  - unfold getGarageAdj, isSim. table.
  - unfold getBalconyAdj, isSim. table.
Qed.

Lemma adjustmentValues_range :
  forallb (fun v => (0.6 <=? 1 + v)%float && (1 + v <=? 1.55)%float)
    adjustmentValues = true.
Proof. vm_compute. reflexivity. Qed.

(** X11: whatever the answers, the multiplier [1 + totalAdj] that the
    apartment formula applies to the base price is between 0.60 and
    1.55. *)
Theorem apartment_multiplier_range (currentYear : float) (fd : FormData) :
  ((0.6 <=? 1 + totalAdj currentYear fd)
   && (1 + totalAdj currentYear fd <=? 1.55))%float = true.
Proof.
  pose proof adjustmentValues_range as R. rewrite forallb_forall in R.
  apply (R (totalAdj currentYear fd)).
  apply totalAdj_in_adjustmentValues.
Qed.

Lemma factors_in_factorValues currentYear fd :
  In (factors currentYear fd) factorValues.
Proof.
  unfold factors, factorValues, factorTables. cbn [fold_left].
  repeat apply in_products.
  - cbn [In]. tauto.
  - unfold getTipologyFactor. table.
  - unfold getAgeFactor. table.
  - unfold getStateFactor. table.
  - unfold getPoolFactor, isSim. table.
  - unfold getGardenFactor, isSim. table.
  - unfold getClassFactor. table.
Qed.

Lemma factorValues_range :
  forallb (fun v => (0.72675 <=? v)%float && (v <=? 1.5125)%float)
    factorValues = true.
Proof. vm_compute. reflexivity. Qed.

(** X12: whatever the answers, the combined factor of the house formula
    is between 0.72675 and 1.5125. *)
Theorem house_factor_range (currentYear : float) (fd : FormData) :
  ((0.72675 <=? factors currentYear fd)
   && (factors currentYear fd <=? 1.5125))%float = true.
Proof.
  pose proof factorValues_range as R. rewrite forallb_forall in R.
  apply (R (factors currentYear fd)).
  apply factors_in_factorValues.
Qed.

(** X13: for one calendar year, read both when the list of steps is
    derived and when the value is computed, the step [Conservacao] is
    asked exactly when the age lowers the value: when the age adjustment
    of an apartment is negative, which is when the age factor of a house
    is below 1.  The list is derived when the kind or the construction
    year changes, and the valuation reads the clock again; across a
    change of year the two can differ: for a building of 2010 the list
    derived in 2025 has no such step, and the valuation of 2026 takes the
    5 per cent of an age above 15 off. *)
Theorem condition_step_iff_age_penalty :
  (forall (year : float) (fd : FormData),
     (In Conservacao (steps year fd) <->
      (getAgeAdj year (yearBuilt fd) <? 0)%float = true)
     /\ (In Conservacao (steps year fd) <->
         (getAgeFactor year (yearBuilt fd) <? 1)%float = true))
  /\ (exists fd : FormData,
        ~ In Conservacao (steps 2025%float fd)
        /\ getAgeAdj 2026%float (yearBuilt fd) = (-0.05)%float
        /\ getAgeFactor 2026%float (yearBuilt fd) = 0.95%float).
Proof.
  split.
  - intros currentYear fd.
    rewrite steps_conservacao_test. unfold getAgeAdj, getAgeFactor.
    assert (T : (15 <? 20)%float = true) by reflexivity.
    destruct (JS.isNaN (JS.parseInt (yearBuilt fd))); cbn [negb andb].
    + split; split; intros H; try discriminate H;
        vm_compute in H; discriminate H.
    + destruct (20 <? currentYear - JS.parseInt (yearBuilt fd))%float eqn:E20.
      * rewrite (FloatOrder.ltb_trans 15%float 20%float _ T E20).
        split; split; intros _; reflexivity.
      * destruct (15 <? currentYear - JS.parseInt (yearBuilt fd))%float.
        -- split; split; intros _; reflexivity.
        -- destruct (10 <? currentYear - JS.parseInt (yearBuilt fd))%float;
             split; split; intros H; try discriminate H;
             vm_compute in H; discriminate H.
  - exists (plainT3 "2010"). split; [|split].
    + rewrite steps_conservacao_test. vm_compute. discriminate.
    + vm_compute. reflexivity.
    + vm_compute. reflexivity.
Qed.

(** ** The price per square metre *)

Lemma pricePerMunicipality_kept precos :
  Forall priceRowKept (pricePerMunicipality precos).
Proof.
  unfold pricePerMunicipality.
  assert (G : forall l acc, Forall priceRowKept acc ->
                Forall priceRowKept
                  (fold_left
                     (fun dict item =>
                        let '(concelho, valor) := item in
                        if negb (concelho =? "") && negb (JS.isNaN valor)
                        then (concelho, valor) :: dict else dict) l acc)).
  { induction l as [|[c v] l IH]; intros acc H; cbn [fold_left]; [exact H|].
    apply IH.
    destruct (negb (c =? "") && negb (JS.isNaN v)) eqn:E; [|exact H].
    apply andb_true_iff in E. destruct E as [E1 E2].
    apply negb_true_iff in E1, E2. apply String.eqb_neq in E1.
    constructor; [split; assumption | exact H]. }
  apply G. constructor.
Qed.

Lemma lookup_In dict key v :
  lookup dict key = Some v -> In (key, v) dict.
Proof.
  induction dict as [|[k w] dict IH]; cbn; [discriminate|].
  destruct (k =? key) eqn:E.
  - apply String.eqb_eq in E. intros [= ->]. left. congruence.
  - intros H. right. apply IH. exact H.
Qed.

Lemma pricePerMunicipality_In precos key v :
  In (key, v) (pricePerMunicipality precos) -> In (key, v) precos.
Proof.
  unfold pricePerMunicipality.
  assert (G : forall l acc,
             In (key, v)
               (fold_left
                  (fun dict item =>
                     let '(concelho, valor) := item in
                     if negb (concelho =? "") && negb (JS.isNaN valor)
                     then (concelho, valor) :: dict else dict) l acc) ->
             In (key, v) l \/ In (key, v) acc).
  { induction l as [|[c w] l IH]; intros acc H; cbn [fold_left] in H;
      [right; exact H|].
    apply IH in H. destruct H as [H|H]; [left; right; exact H|].
    destruct (negb (c =? "") && negb (JS.isNaN w)); [|right; exact H].
    destruct H as [H|H]; [left; left; exact H | right; exact H]. }
  intros H. apply G in H. destruct H as [H|[]]. exact H.
Qed.

(** X14: for a name that is not one every object inherits, the price per
    square metre is never [NaN]; it is the default 1500 for the empty name
    and for a name that no row of the price file carries. *)
Theorem price_default (precos : list (string * float)) (municipality : string) :
  ~ In municipality inheritedKeys ->
  JS.isNaN (getPricePerSquareMeter precos municipality) = false
  /\ (municipality = "" ->
      getPricePerSquareMeter precos municipality = 1500%float)
  /\ ((forall v, ~ In (municipality, v) precos) ->
      getPricePerSquareMeter precos municipality = 1500%float).
Proof.
  intros _. unfold getPricePerSquareMeter.
  pose proof (pricePerMunicipality_kept precos) as K.
  rewrite Forall_forall in K.
  destruct (lookup (pricePerMunicipality precos) municipality) as [v|] eqn:E.
  - apply lookup_In in E. pose proof (K _ E) as [K1 K2].
    cbn [fst snd] in *.
    split; [exact K2|]. split.
    + intros ->. contradiction.
    + intros N. exfalso. apply (N v).
      apply pricePerMunicipality_In. exact E.
  - repeat split; reflexivity.
Qed.

Lemma price_default_witness :
  getPricePerSquareMeter [("Braga", 1800%float)] "Faro" = 1500%float.
Proof.
  assert (O : ~ In "Faro" inheritedKeys) by (cbn; intuition discriminate).
  apply (proj2 (proj2 (price_default [("Braga", 1800%float)] "Faro" O))).
  intros v [H|[]]. discriminate H.
Defined.

(** X15: when several rows of the price file carry the same name (not
    one every object inherits), the last one whose price is a number is
    the one used. *)
Theorem price_last_row_wins
    (before after : list (string * float)) (municipality : string) (v : float) :
  ~ In municipality inheritedKeys ->
  municipality <> "" ->
  JS.isNaN v = false ->
  (forall w, In (municipality, w) after -> JS.isNaN w = true) ->
  getPricePerSquareMeter (before ++ (municipality, v) :: after)%list municipality
  = v.
Proof.
  intros _ Hm Hv Hafter. unfold getPricePerSquareMeter, pricePerMunicipality.
  rewrite fold_left_app. cbn [fold_left].
  apply String.eqb_neq in Hm. rewrite Hm, Hv. cbn [negb andb].
  set (acc := (municipality, v) :: _).
  assert (G : forall l d,
             (forall w, In (municipality, w) l -> JS.isNaN w = true) ->
             lookup
               (fold_left
                  (fun dict item =>
                     let '(concelho, valor) := item in
                     if negb (concelho =? "") && negb (JS.isNaN valor)
                     then (concelho, valor) :: dict else dict) l d)
               municipality
             = lookup d municipality).
  { induction l as [|[c w] l IH]; intros d H; cbn [fold_left]; [reflexivity|].
    rewrite IH by (intros w' Hw'; apply H; right; exact Hw').
    destruct (negb (c =? "") && negb (JS.isNaN w)) eqn:E; [|reflexivity].
    cbn [lookup]. destruct (c =? municipality) eqn:Ec; [|reflexivity].
    apply String.eqb_eq in Ec. subst c.
    apply andb_true_iff in E. destruct E as [_ E]. apply negb_true_iff in E.
    rewrite (H w) in E by (left; reflexivity). discriminate. }
  rewrite (G after acc Hafter). unfold acc. cbn [lookup].
  rewrite String.eqb_refl. reflexivity.
Qed.

Lemma price_last_row_wins_witness :
  getPricePerSquareMeter
    ([("Braga", 1800%float)] ++ ("Braga", 1900%float) :: [("Faro", 2100%float)])%list
    "Braga"
  = 1900%float.
Proof.
  apply (price_last_row_wins [("Braga", 1800%float)] [("Faro", 2100%float)]
           "Braga" 1900%float).
  - cbn. intuition discriminate.
  - discriminate.
  - reflexivity.
  - intros w [H|[]]. discriminate H.
Defined.

(** ** The areas *)

Lemma or_else_zero_number x : JS.isNaN (JS.or_else x 0) = false.
Proof.
  unfold JS.or_else, JS.truthy, JS.isNaN.
  destruct (PrimFloat.is_nan x) eqn:E; cbn [orb negb]; [reflexivity|].
  destruct (PrimFloat.eqb x 0); cbn [negb]; [reflexivity | exact E].
Qed.

(** X16: the two areas of the valuation are never [NaN] (a text that does
    not start with a number counts as 0), and without a plot area the
    total area is the living area. *)
Theorem areas_are_numbers (fd : FormData) :
  JS.isNaN (areaUtil fd) = false
  /\ JS.isNaN (areaTotal fd) = false
  /\ (JS.isNaN (JS.parseFloat (livingArea fd)) = true -> areaUtil fd = 0%float)
  /\ (plotArea fd = "" -> areaTotal fd = areaUtil fd).
Proof.
  unfold areaUtil, areaTotal.
  split; [apply or_else_zero_number|].
  split; [apply or_else_zero_number|]. split.
  - intros H. unfold JS.or_else, JS.truthy. unfold JS.isNaN in H.
    rewrite H. reflexivity.
  - intros ->. reflexivity.
Qed.

Lemma areas_are_numbers_witness :
  areaTotal apartment80 = areaUtil apartment80.
Proof.
  apply (proj2 (proj2 (proj2 (areas_are_numbers apartment80)))).
  reflexivity.
Defined.

(** ** A house without a plot *)

Module FloatExact.

Lemma sub_self (x : float) : JS.isFinite x = true -> (x - x)%float = 0%float.
Proof.
  unfold JS.isFinite. intros F. apply Prim2SF_inj. rewrite sub_spec.
  change (Prim2SF 0) with (S754_zero false).
  destruct (Prim2SF x) as [s|s| |s m e]; try discriminate.
  - destruct s; reflexivity.
  - cbn [SF64sub SFsub]. rewrite Z.sub_diag. reflexivity.
Qed.

Lemma add_zero_r (y : float) :
  Prim2SF y <> S754_zero true -> (y + 0)%float = y.
Proof.
  intros N. apply Prim2SF_inj. rewrite add_spec.
  change (Prim2SF 0) with (S754_zero false).
  destruct (Prim2SF y) as [s|s| |s m e]; try reflexivity.
  destruct s; [contradiction | reflexivity].
Qed.

(** The product of two positive numbers is not the negative zero. *)
Lemma mul_positive_not_neg_zero (x c : float) :
  (0 <? x)%float = true -> (0 <? c)%float = true ->
  Prim2SF (x * c) <> S754_zero true.
Proof.
  rewrite !ltb_spec, mul_spec. change (Prim2SF 0) with (S754_zero false).
  unfold SFltb.
  destruct (Prim2SF x) as [sx|sx| |sx mx ex], (Prim2SF c) as [sc|sc| |sc mc ec];
    try destruct sx; try destruct sc; cbn [SFcompare]; try discriminate;
    intros _ _; cbn [SF64mul SFmul xorb]; try discriminate.
  unfold binary_round_aux.
  destruct (shr_fexp prec emax (Z.pos (mx * mc)) (ex + ec) loc_Exact)
    as [mrs e'].
  destruct (shr_fexp prec emax
              (round_nearest_even (shr_m mrs) (loc_of_shr_record mrs)) e'
              loc_Exact) as [mrs2 e2].
  destruct (shr_m mrs2); try discriminate.
  destruct (e2 <=? emax - prec)%Z; discriminate.
Qed.

End FloatExact.

(** X17: for a house whose total area is its living area (as when the
    plot area is empty) and whose living area is positive and finite, the
    base area is the living area times 0.75: the plot part adds
    nothing. *)
Theorem house_base_area_without_plot (fd : FormData) :
  areaTotal fd = areaUtil fd ->
  (0 <? areaUtil fd)%float = true ->
  JS.isFinite (areaUtil fd) = true ->
  baseArea fd = (areaUtil fd * 0.75)%float.
Proof.
  intros E P F. unfold baseArea. rewrite E, (FloatExact.sub_self _ F).
  change (0 * 0.35)%float with 0%float.
  apply FloatExact.add_zero_r.
  apply FloatExact.mul_positive_not_neg_zero; [exact P | reflexivity].
Qed.

Lemma house_base_area_without_plot_witness :
  baseArea (with_plotArea "" house150) = (areaUtil (with_plotArea "" house150) * 0.75)%float.
Proof.
  apply (house_base_area_without_plot (with_plotArea "" house150));
    vm_compute; reflexivity.
Defined.

(** X18: for a house with that base area, layout T3, a construction year
    that parses and an age between 11 and 15, no condition and no energy
    class chosen, and neither pool nor garden answered yes, every factor
    is 1 and the estimate is the rounded product of the living area, 0.75
    and the price per square metre. *)
Theorem neutral_house_value
    (currentYear : float) (precos : list (string * float))
    (fd : FormData) (age : Z) :
  propertyType fd = Moradia ->
  areaTotal fd = areaUtil fd ->
  (0 <? areaUtil fd)%float = true ->
  JS.isFinite (areaUtil fd) = true ->
  propertyConfig fd = "T3" ->
  JS.isNaN (JS.parseInt (yearBuilt fd)) = false ->
  (currentYear - JS.parseInt (yearBuilt fd))%float = JS.of_Z age ->
  (11 <= age <= 15)%Z ->
  conservationState fd = EstadoVazio ->
  energyClass fd = "" ->
  pool fd <> Sim -> garden fd <> Sim ->
  factors currentYear fd = 1%float
  /\ calculatePropertyValue currentYear precos fd
     = JS.Math_round
         (areaUtil fd * 0.75
          * getPricePerSquareMeter precos (municipality fd))%float.
Proof.
  intros Ht Ea Pa Fa Hc Hn Ha Hr Hs He Hp Hg.
  assert (A : factors currentYear fd = 1%float).
  { unfold factors. rewrite Hc, Hs, He.
    assert (Age : getAgeFactor currentYear (yearBuilt fd) = 1.00%float).
    { unfold getAgeFactor. rewrite Hn, Ha.
      assert (C : (age = 11 \/ age = 12 \/ age = 13 \/ age = 14 \/ age = 15)%Z)
        by lia.
      destruct C as [-> | [-> | [-> | [-> | ->]]]]; reflexivity. }
    assert (Po : getPoolFactor (pool fd) = 1.00%float)
      by (destruct (pool fd); try reflexivity; contradiction).
    assert (Ga : getGardenFactor (garden fd) = 1.00%float)
      by (destruct (garden fd); try reflexivity; contradiction).
    rewrite Age, Po, Ga. reflexivity. }
  split; [exact A|].
  unfold calculatePropertyValue, housePrice. rewrite Ht, A.
  unfold baseArea. rewrite Ea, (FloatExact.sub_self _ Fa).
  change (0 * 0.35)%float with 0%float.
  rewrite FloatExact.add_zero_r
    by (apply FloatExact.mul_positive_not_neg_zero; [exact Pa | reflexivity]).
  rewrite FloatFacts.mul_one_r. reflexivity.
Qed.

Lemma neutral_house_value_witness :
  calculatePropertyValue 2025%float []
    (mkFormData Moradia "150" "" "" "T3" "2012" EstadoVazio "" SemResposta
       SemResposta SemResposta Nao Nao "" "" "" "" "" false false)
  = JS.Math_round (150 * 0.75 * 1500)%float.
Proof.
  apply (neutral_house_value 2025%float []
           (mkFormData Moradia "150" "" "" "T3" "2012" EstadoVazio ""
              SemResposta SemResposta SemResposta Nao Nao "" "" "" "" ""
              false false) 13%Z);
    try reflexivity; try discriminate; try lia.
Defined.

(** ** The progress bar *)

(** X19: at every step before the result, the bar that [App] renders is
    between 0 and 100 percent wide; it is at 0 on the first step, at 100
    on the step [Contacto], and it grows with every step. *)
Theorem progress_bar_grows (currentYear : float) (fd : FormData) (i : Z) :
  let n := totalSteps currentYear fd in
  (0 <= i <= n - 2)%Z ->
  ((0 <=? progress currentYear fd i)
   && (progress currentYear fd i <=? 100))%float = true
  /\ (i = 0%Z -> progress currentYear fd i = 0%float)
  /\ (i = (n - 2)%Z -> progress currentYear fd i = 100%float)
  /\ ((i < n - 2)%Z ->
      (progress currentYear fd i <? progress currentYear fd (i + 1))%float
      = true).
Proof.
  cbv zeta. unfold progress.
  pose proof (steps_length_bounds currentYear fd) as B.
  generalize dependent (totalSteps currentYear fd). intros n B Hi.
  assert (N : (n = 8 \/ n = 9 \/ n = 10 \/ n = 11 \/ n = 12 \/ n = 13)%Z) by lia.
  assert (I : (i = 0 \/ i = 1 \/ i = 2 \/ i = 3 \/ i = 4 \/ i = 5 \/ i = 6
               \/ i = 7 \/ i = 8 \/ i = 9 \/ i = 10 \/ i = 11)%Z) by lia.
  destruct N as [-> | [-> | [-> | [-> | [-> | ->]]]]];
    destruct I as [-> | [-> | [-> | [-> | [-> | [-> | [-> | [-> | [-> | [->
                   | [-> | ->]]]]]]]]]]];
    try (exfalso; lia);
    (split; [vm_compute; reflexivity|]);
    (split; [intros E; first [vm_compute; reflexivity | exfalso; lia]|]);
    (split; intros E; first [vm_compute; reflexivity | exfalso; lia]).
Qed.

Lemma progress_bar_grows_witness :
  progress 2025%float house150 10 = 100%float.
Proof.
  assert (R : (0 <= 10 <= totalSteps 2025%float house150 - 2)%Z)
    by (vm_compute; split; discriminate).
  apply (proj1 (proj2 (proj2 (progress_bar_grows 2025%float house150 10 R)))).
  vm_compute. reflexivity.
Defined.

(** ** The payload *)




(** ** The location lists *)

Lemma dict_get_app_notin {A : Type} (d1 d2 : list (string * A)) key :
  ~ In key (map fst d1) -> dict_get (d1 ++ d2) key = dict_get d2 key.
Proof.
  induction d1 as [|[k v] d1 IH]; cbn; intros H; [reflexivity|].
  destruct (k =? key) eqn:E.
  - apply String.eqb_eq in E. exfalso. apply H. left. exact E.
  - apply IH. intros K. apply H. right. exact K.
Qed.

Lemma dict_get_map {A B : Type} (f : A -> B) (d : list (string * A)) key :
  dict_get (map (fun kv => (fst kv, f (snd kv))) d) key
  = option_map f (dict_get d key).
Proof.
  induction d as [|[k v] d IH]; cbn; [reflexivity|].
  destruct (k =? key); [reflexivity | exact IH].
Qed.

Lemma addOption_In options distrito d :
  In d (addOption options distrito) <-> In d options \/ d = distrito.
Proof.
  unfold addOption. destruct (existsb (String.eqb distrito) options) eqn:E.
  - apply existsb_exists in E. destruct E as [x [Hx E]].
    apply String.eqb_eq in E. subst x. split; [tauto|].
    intros [H| ->]; assumption.
  - rewrite in_app_iff. cbn. split; intros [H|H]; auto.
    + destruct H as [H|[]]. auto.
Qed.

Lemma addOption_NoDup options distrito :
  NoDup options -> NoDup (addOption options distrito).
Proof.
  intros H. unfold addOption.
  destruct (existsb (String.eqb distrito) options) eqn:E; [exact H|].
  apply NoDup_app; [exact H | |].
  { constructor; [intros [] | constructor]. }
  intros x Hx [->|[]].
  assert (T : existsb (String.eqb x) options = true)
    by (apply existsb_exists; exists x; split;
        [exact Hx | apply String.eqb_refl]).
  congruence.
Qed.

Lemma addConcelho_fold distrito concelhos :
  forall municipalities parishes l0,
    dict_get municipalities distrito = Some l0 ->
    exists municipalities',
      fold_left (addConcelho distrito) concelhos
        (Some (municipalities, parishes))
      = Some (municipalities', (rev concelhos ++ parishes)%list)
      /\ dict_get municipalities' distrito
         = Some (l0 ++ map fst concelhos)%list
      /\ forall d, d <> distrito ->
           dict_get municipalities' d = dict_get municipalities d.
Proof.
  induction concelhos as [|[c fr] cs IH]; intros m p l0 H; cbn [fold_left].
  - exists m. rewrite app_nil_r. cbn. auto.
  - cbn [addConcelho]. rewrite H.
    destruct (IH (dict_set distrito (l0 ++ [c])%list m) (dict_set c fr p)
                (l0 ++ [c])%list) as [m' [F [G K]]].
    + cbn. rewrite String.eqb_refl. reflexivity.
    + exists m'. split; [|split].
      * rewrite F. cbn [rev]. rewrite <- app_assoc. reflexivity.
      * rewrite G, <- app_assoc. reflexivity.
      * intros d Hd. rewrite K by assumption. cbn.
        destruct (distrito =? d) eqn:E; [|reflexivity].
        apply String.eqb_eq in E. congruence.
Qed.

Lemma addDistrito_step loc distrito concelhos :
  exists municipalities',
    addDistrito (Some loc) (distrito, concelhos)
    = Some (mkLocations (addOption (districtOptions loc) distrito)
              municipalities'
              (rev concelhos ++ parishesByMunicipality loc)%list)
    /\ dict_get municipalities' distrito = Some (map fst concelhos)
    /\ forall d, d <> distrito ->
         dict_get municipalities' d
         = dict_get (municipalitiesByDistrict loc) d.
Proof.
  destruct (addConcelho_fold distrito concelhos
              (dict_set distrito [] (municipalitiesByDistrict loc))
              (parishesByMunicipality loc) [])
    as [m' [F [G K]]].
  - cbn. rewrite String.eqb_refl. reflexivity.
  - exists m'. cbn [addDistrito]. rewrite F. split; [reflexivity|].
    split; [exact G|].
    intros d Hd. rewrite K by assumption. cbn.
    destruct (distrito =? d) eqn:E; [|reflexivity].
    apply String.eqb_eq in E. congruence.
Qed.

Lemma addDistrito_fold data :
  forall loc,
    NoDup (districtOptions loc) ->
    (forall d, In d (districtOptions loc) ->
               dict_get (municipalitiesByDistrict loc) d <> None) ->
    exists loc',
      fold_left addDistrito data (Some loc) = Some loc'
      /\ NoDup (districtOptions loc')
      /\ (forall d, In d (districtOptions loc') <->
                    In d (districtOptions loc) \/ In d (map fst data))
      /\ (forall d, In d (districtOptions loc') ->
                    dict_get (municipalitiesByDistrict loc') d <> None)
      /\ parishesByMunicipality loc'
         = (rev (flat_map snd data) ++ parishesByMunicipality loc)%list.
Proof.
  induction data as [|[distrito cs] data IH]; intros loc ND Keys;
    cbn [fold_left].
  - exists loc. cbn. repeat split; auto. tauto.
  - destruct (addDistrito_step loc distrito cs) as [m' [E [G K]]].
    rewrite E.
    destruct (IH (mkLocations (addOption (districtOptions loc) distrito) m'
                    (rev cs ++ parishesByMunicipality loc)%list))
      as [loc' [F [ND' [I' [K' P']]]]]; cbn [districtOptions
        municipalitiesByDistrict parishesByMunicipality] in *.
    + apply addOption_NoDup. exact ND.
    + intros d Hd. apply addOption_In in Hd.
      destruct (String.eqb_spec d distrito) as [->|N].
      * rewrite G. discriminate.
      * rewrite K by assumption. destruct Hd as [Hd|Hd]; [|contradiction].
        apply Keys. exact Hd.
    + exists loc'. split; [exact F|]. split; [exact ND'|].
      split; [|split; [exact K'|]].
      * intros d. rewrite I', addOption_In. cbn [map fst In].
        intuition (subst; auto).
      * rewrite P'. cbn [flat_map snd]. rewrite rev_app_distr, <- app_assoc.
        reflexivity.
Qed.

Lemma addDistrito_fold_other data :
  forall loc loc' d,
    fold_left addDistrito data (Some loc) = Some loc' ->
    ~ In d (map fst data) ->
    dict_get (municipalitiesByDistrict loc') d
    = dict_get (municipalitiesByDistrict loc) d.
Proof.
  induction data as [|[distrito cs] data IH]; intros loc loc' d H N;
    cbn [fold_left] in H.
  - injection H as <-. reflexivity.
  - destruct (addDistrito_step loc distrito cs) as [m' [E [G K]]].
    rewrite E in H. apply IH with (d := d) in H.
    + rewrite H. cbn [municipalitiesByDistrict]. apply K.
      intros ->. apply N. left. reflexivity.
    + intros C. apply N. right. exact C.
Qed.

Lemma addDistrito_fold_last before distrito cs after loc loc' :
  fold_left addDistrito (before ++ (distrito, cs) :: after)%list (Some loc)
  = Some loc' ->
  ~ In distrito (map fst after) ->
  dict_get (municipalitiesByDistrict loc') distrito = Some (map fst cs).
Proof.
  rewrite fold_left_app. cbn [fold_left]. intros H N.
  destruct (fold_left addDistrito before (Some loc)) as [loc1|] eqn:E1.
  - destruct (addDistrito_step loc1 distrito cs) as [m' [E [G K]]].
    rewrite E in H.
    rewrite (addDistrito_fold_other after _ loc' distrito H N). exact G.
  - exfalso. clear -H.
    assert (F : forall l, fold_left addDistrito l None = None)
      by (induction l as [|x l IH]; [reflexivity | exact IH]).
    cbn [addDistrito] in H. rewrite F in H. discriminate.
Qed.

Lemma dict_get_None {A : Type} (d : list (string * A)) key :
  dict_get d key = None <-> ~ In key (map fst d).
Proof.
  induction d as [|[k v] d IH]; cbn; [tauto|].
  destruct (String.eqb_spec k key) as [->|N].
  - split; [discriminate | intros H; exfalso; apply H; left; reflexivity].
  - rewrite IH. tauto.
Qed.

(** The entry of a key in a dictionary filled in the order of [l] is the
    last one [l] has for it. *)
Lemma dict_get_rev {A : Type} (l : list (string * A)) key v :
  dict_get (rev l) key = Some v <->
  exists before after,
    l = (before ++ (key, v) :: after)%list /\ ~ In key (map fst after).
Proof.
  split.
  - induction l as [|[k w] l IH] using rev_ind; [discriminate|].
    rewrite rev_app_distr. cbn [rev app dict_get].
    destruct (String.eqb_spec k key) as [->|N].
    + intros H. injection H as ->. exists l, []. split; [reflexivity|].
      intros [].
    + intros H. destruct (IH H) as [before [after [-> Na]]].
      exists before, (after ++ [(k, w)])%list. split.
      * rewrite <- app_assoc. reflexivity.
      * rewrite map_app, in_app_iff. cbn. intros [C|[C|[]]]; auto.
  - intros [before [after [-> Na]]].
    rewrite rev_app_distr. cbn [rev]. rewrite <- app_assoc.
    rewrite dict_get_app_notin by (rewrite map_rev, <- in_rev; exact Na).
    cbn. rewrite String.eqb_refl. reflexivity.
Qed.

Lemma inheritedIndices_some {A : Type} (d : list (string * list A)) :
  inheritedIndices d <> [] <->
  exists prototype i,
    dict_get d protoKey = Some prototype
    /\ (i < List.length prototype)%nat
    /\ dict_get d (indexText i) = None.
Proof.
  unfold inheritedIndices.
  destruct (dict_get d protoKey) as [prototype|].
  - split.
    + intros H.
      destruct (filter _ _) as [|key rest] eqn:E; [contradiction|].
      assert (K : In key (key :: rest)) by (left; reflexivity).
      rewrite <- E in K. apply filter_In in K. destruct K as [K1 K2].
      apply in_map_iff in K1. destruct K1 as [i [<- Hi]].
      apply in_seq in Hi. exists prototype, i.
      split; [reflexivity|]. split; [lia|].
      destruct (dict_get d (indexText i)); [discriminate | reflexivity].
    + intros [prototype' [i [E [Hi N]]]]. injection E as <-.
      intros C.
      assert (K : In (indexText i)
                    (filter (fun key =>
                               match dict_get d key with
                               | Some _ => false | None => true end)
                       (map indexText (seq 0 (List.length prototype))))).
      { apply filter_In. split.
        - apply in_map. apply in_seq. lia.
        - rewrite N. reflexivity. }
      rewrite C in K. destruct K.
  - split; [intros H; contradiction|].
    intros [prototype [i [E _]]]. discriminate.
Qed.

Section LocationFacts.

Variable sortText : list string -> list string.

Lemma sortMunicipalities_fold options :
  forall municipalities,
    (forall d, In d options -> dict_get municipalities d <> None) ->
    exists municipalities',
      fold_left (sortMunicipalities sortText) options (Some municipalities)
      = Some municipalities'
      /\ (forall d, ~ In d options ->
                    dict_get municipalities' d = dict_get municipalities d)
      /\ (NoDup options ->
          forall d, In d options ->
            dict_get municipalities' d
            = option_map sortText (dict_get municipalities d)).
Proof.
  induction options as [|d0 rest IH]; intros m Keys; cbn [fold_left].
  - exists m. repeat split; auto. intros _ d [].
  - cbn [sortMunicipalities].
    destruct (dict_get m d0) as [l|] eqn:E0;
      [|exfalso; apply (Keys d0); [left; reflexivity | exact E0]].
    destruct (IH (dict_set d0 (sortText l) m)) as [m' [F [O S]]].
    + intros d Hd. cbn. destruct (d0 =? d); [discriminate|].
      apply Keys. right. exact Hd.
    + exists m'. split; [exact F|]. split.
      * intros d N. rewrite O by (intros C; apply N; right; exact C).
        cbn. destruct (String.eqb_spec d0 d) as [->|]; [|reflexivity].
        exfalso. apply N. left. reflexivity.
      * intros ND d Hd. inversion ND as [|? ? N0 ND']; subst.
        destruct (String.eqb_spec d0 d) as [<-|Nd].
        -- rewrite O by exact N0. cbn. rewrite String.eqb_refl, E0.
           reflexivity.
        -- destruct Hd as [Hd|Hd]; [contradiction|].
           rewrite (S ND' d Hd). cbn.
           destruct (String.eqb_spec d0 d); [contradiction | reflexivity].
Qed.

Lemma sortParishes_None parishes :
  sortParishes sortText parishes = None <-> inheritedIndices parishes <> [].
Proof.
  unfold sortParishes. destruct (inheritedIndices parishes).
  - split; [discriminate | intros H; contradiction].
  - split; [discriminate | reflexivity].
Qed.

Lemma sortParishes_get parishes sorted key :
  sortParishes sortText parishes = Some sorted ->
  dict_get sorted key
  = option_map (fun l => if key =? protoKey then l else sortText l)
      (dict_get parishes key).
Proof.
  unfold sortParishes. destruct (inheritedIndices parishes); [|discriminate].
  intros H. injection H as <-.
  induction parishes as [|[k v] d IH]; cbn [map dict_get fst snd];
    [reflexivity|].
  destruct (String.eqb_spec k protoKey) as [->|N]; cbn [fst snd dict_get].
  - destruct (String.eqb_spec protoKey key) as [<-|Nk]; [|exact IH].
    cbn. rewrite ?String.eqb_refl. reflexivity.
  - destruct (String.eqb_spec k key) as [<-|Nk]; [|exact IH].
    cbn. destruct (String.eqb_spec k protoKey); [contradiction | reflexivity].
Qed.

Hypothesis sortText_permutes : forall l, Permutation (sortText l) l.

(** The two loops over the districts never fail: what is left of the
    module is the loop over the parishes. *)
Lemma loadLocations_parishes
    (freguesiasData : list (string * list (string * list string))) :
  exists options municipalities,
    loadLocations sortText freguesiasData
    = option_map (mkLocations options municipalities)
        (sortParishes sortText (rev (flat_map snd freguesiasData)))
    /\ NoDup options
    /\ (forall d, In d options <-> In d (map fst freguesiasData))
    /\ (forall d, In d options ->
          exists l, dict_get municipalities d = Some l)
    /\ (forall before distrito concelhos after,
          freguesiasData = (before ++ (distrito, concelhos) :: after)%list ->
          ~ In distrito (map fst after) ->
          dict_get municipalities distrito
          = Some (sortText (map fst concelhos))).
Proof.
  unfold loadLocations.
  destruct (addDistrito_fold freguesiasData (mkLocations [] [] []))
    as [loc1 [F [ND [I [K P]]]]];
    [constructor | intros d [] |].
  rewrite F. cbn [parishesByMunicipality] in P. rewrite app_nil_r in P.
  pose proof (sortText_permutes (districtOptions loc1)) as Perm.
  assert (ND' : NoDup (sortText (districtOptions loc1)))
    by (eapply Permutation_NoDup; [apply Permutation_sym|]; eauto).
  destruct (sortMunicipalities_fold (sortText (districtOptions loc1))
              (municipalitiesByDistrict loc1)) as [m' [G [O S]]].
  { intros d Hd. apply K. eapply Permutation_in; eauto. }
  rewrite G, P. exists (sortText (districtOptions loc1)), m'.
  split; [destruct (sortParishes sortText _); reflexivity|].
  split; [exact ND'|]. split; [|split].
  - intros d. split; intros H.
    + eapply Permutation_in in H; [|exact Perm].
      apply I in H. destruct H as [[]|H]. exact H.
    + eapply Permutation_in; [apply Permutation_sym; exact Perm|].
      apply I. right. exact H.
  - intros d Hd. rewrite (S ND' d Hd).
    destruct (dict_get (municipalitiesByDistrict loc1) d) as [l|] eqn:E.
    + eexists. reflexivity.
    + exfalso. apply (K d); [|exact E]. eapply Permutation_in; eauto.
  - intros before distrito concelhos after E N. subst freguesiasData.
    rewrite S; [|exact ND'|].
    + rewrite (addDistrito_fold_last before distrito concelhos after _ loc1 F N).
      reflexivity.
    + eapply Permutation_in; [apply Permutation_sym; exact Perm|].
      apply I. right. rewrite map_app, in_app_iff. right. left. reflexivity.
Qed.

(** X21: the location module fails to load exactly when a municipality
    is called [__proto__] and the parishes of the last such municipality
    have an index that is the name of no municipality: the loop over the
    keys then asks one parish, a string, for its [sort].  In particular
    the module loads when no municipality is called [__proto__].  When
    it loads, the district options are the names of the districts, each
    once, and every option has its list of municipalities. *)
Theorem locations_load
    (freguesiasData : list (string * list (string * list string))) :
  (loadLocations sortText freguesiasData = None <->
   exists before prototype after i,
     flat_map snd freguesiasData
     = (before ++ (protoKey, prototype) :: after)%list
     /\ ~ In protoKey (map fst after)
     /\ (i < List.length prototype)%nat
     /\ ~ In (indexText i) (map fst (flat_map snd freguesiasData)))
  /\ (~ In protoKey (map fst (flat_map snd freguesiasData)) ->
      exists loc, loadLocations sortText freguesiasData = Some loc)
  /\ forall loc,
       loadLocations sortText freguesiasData = Some loc ->
       NoDup (districtOptions loc)
       /\ (forall d, In d (districtOptions loc) <->
                     In d (map fst freguesiasData))
       /\ (forall d, In d (districtOptions loc) ->
             exists l, dict_get (municipalitiesByDistrict loc) d = Some l).
Proof.
  destruct (loadLocations_parishes freguesiasData)
    as [options [municipalities [E [ND [I [K _]]]]]].
  rewrite E.
  assert (Fails : option_map (mkLocations options municipalities)
                    (sortParishes sortText
                       (rev (flat_map snd freguesiasData))) = None ->
                  exists before prototype after i,
                    flat_map snd freguesiasData
                    = (before ++ (protoKey, prototype) :: after)%list
                    /\ ~ In protoKey (map fst after)
                    /\ (i < List.length prototype)%nat
                    /\ ~ In (indexText i)
                           (map fst (flat_map snd freguesiasData))).
  { intros H.
    assert (H' : sortParishes sortText (rev (flat_map snd freguesiasData))
                 = None)
      by (destruct (sortParishes sortText _); [discriminate H | reflexivity]).
    apply sortParishes_None, inheritedIndices_some in H'.
    destruct H' as [prototype [i [P [Hi Hn]]]].
    apply dict_get_rev in P. destruct P as [before [after [P Na]]].
    exists before, prototype, after, i.
    repeat (split; [assumption|]).
    apply dict_get_None in Hn. rewrite map_rev, <- in_rev in Hn. exact Hn. }
  split; [|split].
  - split; [exact Fails|].
    intros [before [prototype [after [i [P [Na [Hi Hn]]]]]]].
    assert (H' : sortParishes sortText (rev (flat_map snd freguesiasData))
                 = None).
    { apply sortParishes_None, inheritedIndices_some.
      exists prototype, i. split; [|split; [exact Hi|]].
      - apply dict_get_rev. exists before, after. split; assumption.
      - apply dict_get_None. rewrite map_rev, <- in_rev. exact Hn. }
    rewrite H'. reflexivity.
  - intros NoProto.
    destruct (option_map (mkLocations options municipalities)
                (sortParishes sortText (rev (flat_map snd freguesiasData))))
      as [loc|] eqn:L; [exists loc; reflexivity|].
    exfalso. destruct (Fails eq_refl) as [before [prototype [after [_ [P _]]]]].
    apply NoProto. rewrite P, map_app, in_app_iff. right. left. reflexivity.
  - intros loc H.
    destruct (sortParishes sortText (rev (flat_map snd freguesiasData)));
      [|discriminate H].
    injection H as <-. cbn [districtOptions municipalitiesByDistrict].
    split; [exact ND|]. split; [exact I | exact K].
Qed.

(** X22: the municipalities listed for a district are those of the last
    object of that district in the file, sorted. *)
Theorem municipalities_of_last_object
    (before after : list (string * list (string * list string)))
    (distrito : string) (concelhos : list (string * list string))
    (loc : Locations) :
  loadLocations sortText (before ++ (distrito, concelhos) :: after)%list
  = Some loc ->
  ~ In distrito (map fst after) ->
  dict_get (municipalitiesByDistrict loc) distrito
  = Some (sortText (map fst concelhos)).
Proof.
  intros H N.
  destruct (loadLocations_parishes
              (before ++ (distrito, concelhos) :: after)%list)
    as [options [municipalities [E [_ [_ [_ L]]]]]].
  rewrite E in H.
  destruct (sortParishes sortText _); [|discriminate H].
  injection H as <-. cbn [municipalitiesByDistrict].
  apply (L before distrito concelhos after eq_refl N).
Qed.

End LocationFacts.

(** X23: the parishes listed for a municipality are those of the last
    object with that name in the whole file, whatever district it is in:
    two municipalities of the same name share one list.  The list is
    sorted, except under the name [__proto__]: that list is the
    prototype, which the loop over the keys does not visit, and it stays
    in the order of the file. *)
Theorem parishes_of_last_object
    (sortText : list string -> list string)
    (before after : list (string * list (string * list string)))
    (distrito : string) (earlier later : list (string * list string))
    (concelho : string) (freguesias : list string) (loc : Locations) :
  loadLocations sortText
    (before ++ (distrito, earlier ++ (concelho, freguesias) :: later) :: after)%list
  = Some loc ->
  ~ In concelho (map fst (later ++ flat_map snd after)) ->
  dict_get (parishesByMunicipality loc) concelho
  = Some (if concelho =? protoKey then freguesias else sortText freguesias).
Proof.
  unfold loadLocations. intros H N.
  destruct (addDistrito_fold
              (before ++ (distrito, earlier ++ (concelho, freguesias) :: later)
                 :: after)%list (mkLocations [] [] []))
    as [loc1 [F [_ [_ [_ P]]]]];
    [constructor | intros d [] |].
  rewrite F in H.
  destruct (fold_left (sortMunicipalities sortText)
              (sortText (districtOptions loc1))
              (Some (municipalitiesByDistrict loc1))) as [m'|];
    [|discriminate].
  destruct (sortParishes sortText (parishesByMunicipality loc1))
    as [sorted|] eqn:SP; [|discriminate].
  injection H as <-. cbn [parishesByMunicipality].
  rewrite (sortParishes_get sortText _ sorted concelho SP), P.
  cbn [parishesByMunicipality]. rewrite app_nil_r.
  assert (G : dict_get
                (rev (flat_map snd
                        (before
                         ++ (distrito,
                             earlier ++ (concelho, freguesias) :: later)
                         :: after)%list)) concelho = Some freguesias).
  { apply dict_get_rev.
    exists (flat_map snd before ++ earlier)%list,
           (later ++ flat_map snd after)%list.
    split; [|exact N].
    rewrite flat_map_app. cbn [flat_map snd]. rewrite <- !app_assoc.
    reflexivity. }
  rewrite G. reflexivity.
Qed.

Lemma keepOrder_permutes l : Permutation (keepOrder l) l.
Proof. apply Permutation_refl. Qed.

Lemma locations_load_witness :
  (loadLocations keepOrder sampleLocations = None <->
   exists before prototype after i,
     flat_map snd sampleLocations
     = (before ++ (protoKey, prototype) :: after)%list
     /\ ~ In protoKey (map fst after)
     /\ (i < List.length prototype)%nat
     /\ ~ In (indexText i) (map fst (flat_map snd sampleLocations)))
  /\ (~ In protoKey (map fst (flat_map snd sampleLocations)) ->
      exists loc, loadLocations keepOrder sampleLocations = Some loc)
  /\ forall loc,
       loadLocations keepOrder sampleLocations = Some loc ->
       NoDup (districtOptions loc)
       /\ (forall d, In d (districtOptions loc) <->
                     In d (map fst sampleLocations))
       /\ (forall d, In d (districtOptions loc) ->
             exists l, dict_get (municipalitiesByDistrict loc) d = Some l).
Proof.
  apply (locations_load keepOrder keepOrder_permutes sampleLocations).
Defined.

Lemma municipalities_of_last_object_witness :
  match loadLocations keepOrder sampleLocations with
  | Some loc =>
      dict_get (municipalitiesByDistrict loc) "Acores" = Some ["Lagoa"]
  | None => False
  end.
Proof.
  destruct (loadLocations keepOrder sampleLocations) as [loc|] eqn:E.
  - apply (municipalities_of_last_object keepOrder keepOrder_permutes
             [("Faro", [("Lagoa", ["Carvoeiro"]); ("Faro", ["Montenegro"])])]
             [] "Acores" [("Lagoa", ["Rosario"])] loc E).
    intros [].
  - vm_compute in E. discriminate E.
Defined.

Lemma parishes_of_last_object_witness :
  match loadLocations keepOrder sampleLocations with
  | Some loc => dict_get (parishesByMunicipality loc) "Lagoa" = Some ["Rosario"]
  | None => False
  end.
Proof.
  destruct (loadLocations keepOrder sampleLocations) as [loc|] eqn:E.
  - apply (parishes_of_last_object keepOrder
             [("Faro", [("Lagoa", ["Carvoeiro"]); ("Faro", ["Montenegro"])])]
             [] "Acores" [] [] "Lagoa" ["Rosario"] loc E).
    intros [].
  - vm_compute in E. discriminate E.
Defined.

(** A municipality called [__proto__] with a parish stops the module;
    with as many municipalities called [0], [1], ... as it has parishes
    the module loads, and its parishes are left unsorted (the sort here is
    the reversal of the list). *)
Example prototype_parish_fails :
  loadLocations keepOrder [("Faro", [("__proto__", ["Se"])])] = None.
Proof. vm_compute. reflexivity. Qed.

Example prototype_parishes_unsorted :
  option_map (fun loc => dict_get (parishesByMunicipality loc) "__proto__")
    (loadLocations (@rev string)
       [("Faro", [("0", ["x"; "y"]); ("1", []); ("__proto__", ["b"; "a"])])])
  = Some (Some ["b"; "a"])
  /\ option_map (fun loc => dict_get (parishesByMunicipality loc) "0")
       (loadLocations (@rev string)
          [("Faro", [("0", ["x"; "y"]); ("1", []); ("__proto__", ["b"; "a"])])])
     = Some (Some ["y"; "x"]).
Proof. split; vm_compute; reflexivity. Qed.

(** ** The checks on numbers, and the way back *)

Lemma ltb_negb_leb x y :
  JS.isNaN x = false -> JS.isNaN y = false ->
  (x <? y)%float = negb (y <=? x)%float.
Proof.
  intros Hx Hy. rewrite (FloatFacts.leb_negb_ltb y x Hy Hx), negb_involutive.
  reflexivity.
Qed.

(** X24: when the field of the step holds a number, the checks of the
    three numeric steps are the comparisons one expects: the living area
    must be positive, the plot area positive and larger than a living
    area that is a number, the floor zero or more; in each case the field
    must not be blank. *)
Theorem numeric_steps_for_numbers
    (currentYear : float) (fd : FormData) (i : Z) :
  (index (steps currentYear fd) i = Some AreaUtil ->
   JS.isNaN (JS.Number (livingArea fd)) = false ->
   (isNextDisabled currentYear fd i = false <->
    (JS.trim (livingArea fd) =? "") = false
    /\ (0 <? JS.Number (livingArea fd))%float = true))
  /\ (index (steps currentYear fd) i = Some AreaTotal ->
      JS.isNaN (JS.Number (plotArea fd)) = false ->
      JS.isNaN (JS.Number (livingArea fd)) = false ->
      (isNextDisabled currentYear fd i = false <->
       (JS.trim (plotArea fd) =? "") = false
       /\ (0 <? JS.Number (plotArea fd))%float = true
       /\ (JS.Number (livingArea fd) <? JS.Number (plotArea fd))%float = true))
  /\ (index (steps currentYear fd) i = Some Floor ->
      JS.isNaN (JS.Number (floor fd)) = false ->
      (isNextDisabled currentYear fd i = false <->
       (JS.trim (floor fd) =? "") = false
       /\ (0 <=? JS.Number (floor fd))%float = true)).
Proof.
  assert (Z0 : JS.isNaN 0%float = false) by reflexivity.
  rewrite isNextDisabled_stepDisabled.
  split; [|split].
  - intros -> N. cbn [stepDisabled].
    rewrite (FloatFacts.leb_negb_ltb _ _ N Z0).
    rewrite !orb_false_iff, !negb_false_iff. tauto.
  - intros -> Np Nl. cbn [stepDisabled].
    rewrite (FloatFacts.leb_negb_ltb _ _ Np Z0),
            (FloatFacts.leb_negb_ltb _ _ Np Nl).
    rewrite !orb_false_iff, !negb_false_iff. tauto.
  - intros -> N. cbn [stepDisabled].
    rewrite (ltb_negb_leb _ _ N Z0).
    rewrite !orb_false_iff, !negb_false_iff. tauto.
Qed.

Lemma numeric_steps_for_numbers_witness :
  isNextDisabled 2025%float house150 1 = false <->
  (JS.trim (livingArea house150) =? "") = false
  /\ (0 <? JS.Number (livingArea house150))%float = true.
Proof.
  apply (proj1 (numeric_steps_for_numbers 2025%float house150 1));
    vm_compute; reflexivity.
Defined.

(** X25: going back undoes going forward: from a step before [Contacto]
    whose check passes, the enabled button followed by the back arrow
    gives the state one started from; from [Contacto] the back arrow
    after the button changes nothing, for the result has no way back. *)
Theorem forward_then_back (currentYear : float) (st : AppState) :
  showWelcome st = false ->
  isNextDisabled currentYear (formData st) (currentStep st) = false ->
  let n := totalSteps currentYear (formData st) in
  ((0 <= currentStep st < n - 2)%Z ->
   handle currentYear ClickBack (handle currentYear ClickPrimary st) = st)
  /\ (currentStep st = (n - 2)%Z ->
      handle currentYear ClickBack (handle currentYear ClickPrimary st)
      = handle currentYear ClickPrimary st).
Proof.
  intros W D. destruct st as [w cs fd].
  cbn [showWelcome currentStep formData] in *. subst w. cbv zeta.
  pose proof (steps_marks currentYear fd) as S. cbv zeta in S.
  assert (Step : forall j, (j <> totalSteps currentYear fd - 1)%Z ->
                   isResultado (index (steps currentYear fd) j) = false).
  { intros j Hj.
    destruct (index (steps currentYear fd) j) as [[]|] eqn:E; try reflexivity.
    exfalso. apply Hj. apply (S j). exact E. }
  assert (Last : index (steps currentYear fd) (totalSteps currentYear fd - 1)
                 = Some Resultado) by (apply (S _); reflexivity).
  assert (Go : forall j, (j < totalSteps currentYear fd - 1)%Z ->
                 isNextDisabled currentYear fd j = false ->
                 handle currentYear ClickPrimary (mkApp false j fd)
                 = mkApp false (j + 1) fd).
  { intros j Hj Dj. unfold handle, handlePrimaryButton.
    cbn [showWelcome currentStep formData].
    rewrite (Step j) by lia. rewrite Dj. cbn [orb].
    destruct (index (steps currentYear fd) j) as [[]|] eqn:E;
      try (unfold goToNextStep; f_equal; lia).
    exfalso. apply (S j) in E. lia. }
  split; intros H.
  - rewrite (Go cs) by (try lia; exact D).
    unfold handle. cbn [showWelcome currentStep formData].
    rewrite (Step (cs + 1)%Z) by lia.
    replace (0 <? cs + 1)%Z with true by (symmetry; apply Z.ltb_lt; lia).
    cbn [andb negb]. unfold goToPreviousStep. f_equal. lia.
  - rewrite (Go cs) by (try lia; exact D).
    unfold handle. cbn [showWelcome currentStep formData].
    replace (cs + 1)%Z with (totalSteps currentYear fd - 1)%Z by lia.
    rewrite Last. cbn [isResultado negb]. rewrite andb_false_r. reflexivity.
Qed.

Lemma forward_then_back_witness :
  handle 2025%float ClickBack
    (handle 2025%float ClickPrimary (mkApp false 4 house150))
  = mkApp false 4 house150.
Proof.
  assert (W : showWelcome (mkApp false 4 house150) = false) by reflexivity.
  assert (D : isNextDisabled 2025%float (formData (mkApp false 4 house150))
                (currentStep (mkApp false 4 house150)) = false)
    by (vm_compute; reflexivity).
  apply (proj1 (forward_then_back 2025%float (mkApp false 4 house150) W D)).
  vm_compute. split; [discriminate | reflexivity].
Defined.
